(** * Federal DEI contracts dashboard (app.py): loader, filter engine, aggregator

    A shallow embedding of the data pipeline of [app.py].  The pandas
    operations the script calls are written out on a small column store:
    a frame is an ordered list of named columns, a column is a list of
    cells, and a cell is a missing value, a string, a number, a boolean
    or a timestamp.

    Numbers: [float64] values are modelled by exact rationals ([Q]), so
    sums are exact and infinities are left out; a missing number (NaN)
    is the cell [NA].  Strings: Python [str] is modelled by byte strings
    and the case functions by their ASCII behaviour. *)

From Stdlib Require Import String Ascii DecimalString.
From Stdlib Require Import Bool Arith ZArith NArith QArith Qround Qabs Lqa Lia.
From Stdlib Require Import List Permutation Sorted.
From Stdlib Require OrderedTypeEx.
Import ListNotations.

Local Open Scope string_scope.
Local Open Scope list_scope.

(* ------------------------------------------------------------------ *)
(** ** Python string methods used by the script (ASCII) *)

Module PyStr.

Definition is_upper (c : ascii) : bool :=
  let n := N_of_ascii c in (65 <=? n)%N && (n <=? 90)%N.

Definition is_lower (c : ascii) : bool :=
  let n := N_of_ascii c in (97 <=? n)%N && (n <=? 122)%N.

Definition is_cased (c : ascii) : bool := is_upper c || is_lower c.

Definition to_lower (c : ascii) : ascii :=
  if is_upper c then ascii_of_N (N_of_ascii c + 32) else c.

Definition to_upper (c : ascii) : ascii :=
  if is_lower c then ascii_of_N (N_of_ascii c - 32) else c.

(** [str.lower()] *)
Fixpoint lower (s : string) : string :=
  match s with
  | EmptyString => EmptyString
  | String c s' => String (to_lower c) (lower s')
  end.

(** [str.title()]: a cased character is upper-cased when the character
    before it is not cased, and lower-cased otherwise. *)
Fixpoint title_from (previous_is_cased : bool) (s : string) : string :=
  match s with
  | EmptyString => EmptyString
  | String c s' =>
      String (if previous_is_cased then to_lower c else to_upper c)
             (title_from (is_cased c) s')
  end.

Definition title (s : string) : string := title_from false s.

(** [str.startswith(p)] *)
Definition startswith (s p : string) : bool := String.prefix p s.

(** [str.replace(old, new)] for a non-empty [old]: every occurrence,
    leftmost first, without overlap.  [skip] counts the characters of
    the occurrence just matched that are still to be consumed. *)
Fixpoint replace_from (old new : string) (skip : nat) (s : string) : string :=
  match s with
  | EmptyString => EmptyString
  | String c s' =>
      match skip with
      | S k => replace_from old new k s'
      | O =>
          if String.prefix old s
          then new ++ replace_from old new (String.length old - 1) s'
          else String c (replace_from old new 0 s')
      end
  end.

Definition replace (old new s : string) : string := replace_from old new 0 s.

(** [re.sub('[...]', '', s)] for a character class: every character of
    the class is removed. *)
Fixpoint remove_class (cls : list ascii) (s : string) : string :=
  match s with
  | EmptyString => EmptyString
  | String c s' =>
      if existsb (Ascii.eqb c) cls then remove_class cls s'
      else String c (remove_class cls s')
  end.

(** [' '.join(words)] *)
Fixpoint join (sep : string) (words : list string) : string :=
  match words with
  | [] => ""
  | [w] => w
  | w :: ws => w ++ sep ++ join sep ws
  end.

(** The blanks [str.split()] breaks a text at: tab, line feed, vertical
    tab, form feed, carriage return, the four separator control
    characters 28 to 31, and space. *)
Definition is_space (c : ascii) : bool :=
  let n := N_of_ascii c in
  ((9 <=? n)%N && (n <=? 13)%N) || ((28 <=? n)%N && (n <=? 32)%N).

(** [str.split()]: maximal runs of non-blank characters.  [cur] is the
    word being read, reversed. *)
Fixpoint split_from (cur : list ascii) (s : string) : list string :=
  let flush := match cur with
               | [] => []
               | _ => [string_of_list_ascii (rev cur)]
               end in
  match s with
  | EmptyString => flush
  | String c s' =>
      if is_space c then flush ++ split_from [] s'
      else split_from (c :: cur) s'
  end.

Definition split (s : string) : list string := split_from [] s.

(** A word: a non-empty string without a blank. *)
Definition is_word (w : string) : bool :=
  negb (String.eqb w "") &&
  forallb (fun c => negb (is_space c)) (list_ascii_of_string w).

End PyStr.

(* ------------------------------------------------------------------ *)
(** ** Cells, series and frames *)

Inductive cell : Type :=
| NA                       (* NaN, NaT, None: a missing value *)
| Str (s : string)         (* object column holding a string *)
| Num (x : Q)              (* float64 / int64 *)
| Flag (b : bool)          (* bool *)
| Stamp (t : Z).           (* datetime64[ns]: nanoseconds since the epoch *)

Definition Series := list cell.

(** A frame: the length of its index and its columns, in order. *)
Record DataFrame : Type := mkDataFrame {
  nrows : nat;
  data : list (string * Series)
}.

(** [df.columns] *)
Definition columns (df : DataFrame) : list string := map fst (data df).

(** Every column is as long as the index and no name occurs twice
    ([read_csv] renames repeated headers). *)
Definition well_formed (df : DataFrame) : Prop :=
  Forall (fun c => length (snd c) = nrows df) (data df) /\ NoDup (columns df).

Inductive exn : Type :=
| FileNotFoundError
| ParserError
| KeyError (key : string)
| ValueError
| TypeError
| AttributeError.

Definition result (A : Type) : Type := (exn + A)%type.

Definition ok {A : Type} (a : A) : result A := inr a.
Definition raise {A : Type} (e : exn) : result A := inl e.

Definition bind {A B : Type} (m : result A) (f : A -> result B) : result B :=
  match m with
  | inl e => inl e
  | inr a => f a
  end.

Notation "x <- m ;; k" := (bind m (fun x => k))
  (at level 61, m at next level, right associativity).

(** A computation over every element that stops at the first exception. *)
Fixpoint mapM {A B : Type} (f : A -> result B) (l : list A) : result (list B) :=
  match l with
  | [] => ok []
  | a :: l' => b <- f a ;; bs <- mapM f l' ;; ok (b :: bs)
  end.

Fixpoint lookup (name : string) (cols : list (string * Series)) : option Series :=
  match cols with
  | [] => None
  | (n, s) :: cols' => if String.eqb n name then Some s else lookup name cols'
  end.

(** [name in df.columns] *)
Definition has_column (df : DataFrame) (name : string) : bool :=
  existsb (String.eqb name) (columns df).

(** [df[name]]: raises [KeyError] when there is no such column. *)
Definition getitem (df : DataFrame) (name : string) : result Series :=
  match lookup name (data df) with
  | Some s => ok s
  | None => raise (KeyError name)
  end.

Fixpoint assign (name : string) (s : Series) (cols : list (string * Series))
  : list (string * Series) :=
  match cols with
  | [] => [(name, s)]
  | (n, s0) :: cols' =>
      if String.eqb n name then (n, s) :: cols' else (n, s0) :: assign name s cols'
  end.

(** [df[name] = s]: overwrites the column in place, or appends it. *)
Definition setitem (df : DataFrame) (name : string) (s : Series) : DataFrame :=
  {| nrows := nrows df; data := assign name s (data df) |}.

(** Selection of the positions where the mask is true. *)
Fixpoint select {A : Type} (mask : list bool) (l : list A) : list A :=
  match mask, l with
  | b :: mask', a :: l' => if b then a :: select mask' l' else select mask' l'
  | _, _ => []
  end.

(** An operation between two columns, element by element. *)
Definition zip_with {A B C : Type} (f : A -> B -> C) (l1 : list A) (l2 : list B)
  : list C :=
  map (fun p => f (fst p) (snd p)) (combine l1 l2).

(** [df[mask]] *)
Definition boolean_index (df : DataFrame) (mask : list bool) : DataFrame :=
  {| nrows := length (select mask (seq 0 (nrows df)));
     data := map (fun c => (fst c, select mask (snd c))) (data df) |}.

(** [df[names]]: the sub-frame of the listed columns. *)
Definition getitems (df : DataFrame) (names : list string)
  : result (list (string * Series)) :=
  mapM (fun n => s <- getitem df n ;; ok (n, s)) names.

(* ------------------------------------------------------------------ *)
(** ** Numbers and dates *)

Definition Qltb (x y : Q) : bool := negb (Qle_bool y x).

Definition ns_per_day : Z := 86400000000000.

(** [.dt.date]: the calendar day of a timestamp, as a day number. *)
Definition date_of (t : Z) : Z := (t / ns_per_day)%Z.

(** Proleptic Gregorian calendar: day number since 1970-01-01 to
    (year, month, day) and back. *)
Definition civil_from_days (days : Z) : Z * Z * Z :=
  let z := (days + 719468)%Z in
  let era := (z / 146097)%Z in
  let doe := (z - era * 146097)%Z in
  let yoe := ((doe - doe / 1460 + doe / 36524 - doe / 146096) / 365)%Z in
  let doy := (doe - (365 * yoe + yoe / 4 - yoe / 100))%Z in
  let mp := ((5 * doy + 2) / 153)%Z in
  let d := (doy - (153 * mp + 2) / 5 + 1)%Z in
  let m := if (mp <? 10)%Z then (mp + 3)%Z else (mp - 9)%Z in
  let y := (yoe + era * 400)%Z in
  (if (m <=? 2)%Z then (y + 1)%Z else y, m, d).

Definition days_from_civil (y m d : Z) : Z :=
  let y' := if (m <=? 2)%Z then (y - 1)%Z else y in
  let era := (y' / 400)%Z in
  let yoe := (y' - era * 400)%Z in
  let mp := if (m <=? 2)%Z then (m + 9)%Z else (m - 3)%Z in
  let doy := ((153 * mp + 2) / 5 + d - 1)%Z in
  let doe := (yoe * 365 + yoe / 4 - yoe / 100 + doy)%Z in
  (era * 146097 + doe - 719468)%Z.

(** [.dt.to_period('M')]: the month of a timestamp, counted from
    January 1970. *)
Definition to_period_M (t : Z) : Z :=
  let '(y, m, _) := civil_from_days (date_of t) in
  ((y - 1970) * 12 + (m - 1))%Z.

Definition string_of_Z (z : Z) : string :=
  NilZero.string_of_int (Z.to_int z).

Definition zero_pad (width : nat) (s : string) : string :=
  string_of_list_ascii (repeat "0"%char (width - String.length s)) ++ s.

(** [str(period)] for a monthly period: [YYYY-MM]. *)
Definition period_str (p : Z) : string :=
  zero_pad 4 (string_of_Z (1970 + p / 12)) ++ "-" ++ zero_pad 2 (string_of_Z (p mod 12 + 1)).

(* ------------------------------------------------------------------ *)
(** ** Loader / normalizer: [load_data] *)

Definition date_columns : list string :=
  ["action_date"; "contract_start_date"; "contract_end_date"].

Definition agency_mappings : list (string * string) :=
  [ ("Agency for International Development (USAID)", "Agency for International Development");
    ("Agency for International Development", "Agency for International Development");
    ("Department of Health and Human Services (HHS)", "Department of Health and Human Services");
    ("Department of Health and Human Services", "Department of Health and Human Services");
    ("National Science Foundation (NSF)", "National Science Foundation");
    ("National Science Foundation", "National Science Foundation");
    ("Department of Justice (DOJ)", "Department of Justice");
    ("Department of Justice", "Department of Justice");
    ("Department of Defense (DOD)", "Department of Defense");
    ("Department of Defense", "Department of Defense");
    ("Department of Education (ED)", "Department of Education");
    ("Department of Education", "Department of Education");
    ("Environmental Protection Agency (EPA)", "Environmental Protection Agency");
    ("Environmental Protection Agency", "Environmental Protection Agency") ].

(** A dict lookup. *)
Fixpoint dict_get (m : list (string * string)) (k : string) : option string :=
  match m with
  | [] => None
  | (k0, v) :: m' => if String.eqb k0 k then Some v else dict_get m' k
  end.

(** What [Series.replace(agency_mappings)] does to one agency name: a
    name that is a key of the dict becomes its value, any other name
    stays. *)
Definition canonicalize (x : string) : string :=
  match dict_get agency_mappings x with
  | Some y => y
  | None => x
  end.

(** [Series.replace(dict)], element by element; only strings can be keys. *)
Definition replace_values (c : cell) : cell :=
  match c with
  | Str s => Str (canonicalize s)
  | _ => c
  end.

(** [Series.replace(r'[$,]', '', regex=True)], element by element: the
    substitution applies to strings, other values stay. *)
Definition regex_replace (c : cell) : cell :=
  match c with
  | Str s => Str (PyStr.remove_class ["$"%char; ","%char] s)
  | _ => c
  end.

(** The bin edges of [pd.cut]; [None] is [float('inf')]. *)
Definition bins : list (option Q) :=
  [Some 0; Some 10000; Some 100000; Some 1000000; Some 10000000; None]%Q.

Definition labels : list string :=
  ["Micro (< $10K)"; "Small ($10K - $100K)"; "Medium ($100K - $1M)";
   "Large ($1M - $10M)"; "Major (> $10M)"].

Definition edge_lt (e : option Q) (x : Q) : bool :=
  match e with
  | Some b => Qltb b x
  | None => false
  end.

(** [np.searchsorted(edges, x, side='left')] on sorted edges: the number
    of edges strictly below [x]. *)
Definition searchsorted_left (edges : list (option Q)) (x : Q) : nat :=
  length (filter (fun e => edge_lt e x) edges).

(** [pd.cut(x, bins, labels=labels)] with its defaults ([right=True],
    [include_lowest=False]): position 0 and position [len(bins)] are
    outside every bin and give a missing value, position [i] gives
    [labels[i-1]]. *)
Definition cut (edges : list (option Q)) (names : list string) (c : cell) : cell :=
  match c with
  | Num x =>
      let ids := searchsorted_left edges x in
      if (ids =? 0)%nat || (ids =? length edges)%nat then NA
      else match nth_error names (ids - 1) with
           | Some l => Str l
           | None => NA
           end
  | _ => NA
  end.

(** [(end - start).dt.days], element by element: whole days, rounded
    down; missing when either side is missing. *)
Definition days_between (e s : cell) : cell :=
  match e, s with
  | Stamp te, Stamp ts => Num (inject_Z ((te - ts) / ns_per_day))
  | _, _ => NA
  end.

Section Loader.

(** The two scalar parsers of the libraries: what [pd.to_datetime] makes
    of a date string and what [float()] makes of a numeric string;
    [None] when they raise. *)
Variable parse_datetime : string -> option Z.
Variable parse_float : string -> option Q.

(** [pd.to_datetime], element by element: a missing value becomes NaT, a
    number is read as nanoseconds since the epoch, a boolean is refused. *)
Definition to_datetime (c : cell) : result cell :=
  match c with
  | NA => ok NA
  | Str s =>
      match parse_datetime s with
      | Some t => ok (Stamp t)
      | None => raise ValueError
      end
  | Num x => ok (Stamp (Qfloor x))
  | Flag _ => raise TypeError
  | Stamp t => ok (Stamp t)
  end.

(** [Series.astype(float)], element by element. *)
Definition astype_float (c : cell) : result cell :=
  match c with
  | NA => ok NA
  | Str s =>
      match parse_float s with
      | Some x => ok (Num x)
      | None => raise ValueError
      end
  | Num x => ok (Num x)
  | Flag b => ok (Num (if b then 1 else 0))
  | Stamp _ => raise TypeError
  end.

(** The loop over [date_columns]. *)
Fixpoint convert_dates (cols : list string) (df : DataFrame) : result DataFrame :=
  match cols with
  | [] => ok df
  | col :: cols' =>
      s <- getitem df col ;;
      s' <- mapM to_datetime s ;;
      convert_dates cols' (setitem df col s')
  end.

(** [df['award_amount'].replace(r'[$,]', '', regex=True).astype(float)] *)
Definition convert_amount (df : DataFrame) : result DataFrame :=
  amount <- getitem df "award_amount" ;;
  amount <- mapM astype_float (map regex_replace amount) ;;
  ok (setitem df "award_amount" amount).

(** [df['awarding_agency_name'].replace(agency_mappings)] *)
Definition consolidate_agencies (df : DataFrame) : result DataFrame :=
  agency <- getitem df "awarding_agency_name" ;;
  ok (setitem df "awarding_agency_name" (map replace_values agency)).

(** The contract duration, if not already present. *)
Definition add_duration (df : DataFrame) : result DataFrame :=
  if negb (has_column df "contract_duration_days")
  then e <- getitem df "contract_end_date" ;;
       s <- getitem df "contract_start_date" ;;
       ok (setitem df "contract_duration_days" (zip_with days_between e s))
  else ok df.

(** The award size categories, if not present. *)
Definition add_size_category (df : DataFrame) : result DataFrame :=
  if negb (has_column df "award_size_category")
  then amount <- getitem df "award_amount" ;;
       ok (setitem df "award_size_category" (map (cut bins labels) amount))
  else ok df.

(** The body of the [try] block of [load_data]; [csv] is what
    [pd.read_csv] returned or raised. *)
Definition load_data_try (csv : result DataFrame) : result DataFrame :=
  df <- csv ;;
  df <- convert_dates date_columns df ;;
  df <- convert_amount df ;;
  df <- consolidate_agencies df ;;
  df <- add_duration df ;;
  df <- add_size_category df ;;
  ok df.

End Loader.

(* ------------------------------------------------------------------ *)
(** ** Scalars: comparison, sorting, formatting *)

(** Structural sameness of two cells (a missing value is the same as a
    missing value), as [unique] and [nunique] identify values. *)
Definition cell_eqb (a b : cell) : bool :=
  match a, b with
  | NA, NA => true
  | Str s, Str s' => String.eqb s s'
  | Num x, Num y => Qeq_bool x y
  | Flag x, Flag y => Bool.eqb x y
  | Stamp t, Stamp t' => Z.eqb t t'
  | _, _ => false
  end.

(** [a == b] of Python on two scalars: a missing value equals nothing. *)
Definition py_eq (a b : cell) : bool :=
  match a, b with
  | NA, _ | _, NA => false
  | Flag x, Num y => Qeq_bool (if x then 1 else 0) y
  | Num x, Flag y => Qeq_bool x (if y then 1 else 0)
  | _, _ => cell_eqb a b
  end.

(** [a < b] of Python on two scalars: strings by code point, numbers by
    value, timestamps by time; a string against a number is a
    [TypeError]; NaN is below nothing. *)
Definition py_lt (a b : cell) : result bool :=
  match a, b with
  | Str s, Str s' => ok (String.ltb s s')
  | Stamp t, Stamp t' => ok (t <? t')%Z
  | (Num _ | Flag _ | NA), (Num _ | Flag _ | NA) =>
      match a, b with
      | NA, _ | _, NA => ok false
      | _, _ =>
          let v c := match c with Num x => x | Flag true => 1 | _ => 0 end in
          ok (Qltb (v a) (v b))
      end
  | _, _ => raise TypeError
  end.

(** The values [<] can compare with each other: strings with strings,
    timestamps with timestamps, numbers (booleans and NaN among them)
    with numbers. *)
Inductive kind : Type := Text | Instant | Number.

Definition kind_of (c : cell) : kind :=
  match c with
  | Str _ => Text
  | Stamp _ => Instant
  | _ => Number
  end.


(** A stable insertion sort. *)
Fixpoint insert {A : Type} (leb : A -> A -> bool) (x : A) (l : list A) : list A :=
  match l with
  | [] => [x]
  | y :: l' => if leb x y then x :: l else y :: insert leb x l'
  end.

Fixpoint sort {A : Type} (leb : A -> A -> bool) (l : list A) : list A :=
  match l with
  | [] => []
  | x :: l' => insert leb x (sort leb l')
  end.

(** [sorted(values)] of Python, written as a stable insertion sort over
    [<]: it raises when two values cannot be compared. *)
Fixpoint py_insert (x : cell) (l : list cell) : result (list cell) :=
  match l with
  | [] => ok [x]
  | y :: l' =>
      lt <- py_lt y x ;;
      if lt then r <- py_insert x l' ;; ok (y :: r) else ok (x :: l)
  end.

Fixpoint sorted (l : list cell) : result (list cell) :=
  match l with
  | [] => ok []
  | x :: l' => r <- sorted l' ;; py_insert x r
  end.

(** [Series.unique()]: the distinct values, in order of first occurrence. *)
Fixpoint unique_from (seen : list cell) (l : list cell) : list cell :=
  match l with
  | [] => []
  | c :: l' =>
      if existsb (cell_eqb c) seen then unique_from seen l'
      else c :: unique_from (c :: seen) l'
  end.

Definition unique (s : Series) : list cell := unique_from [] s.

Definition notna (c : cell) : bool :=
  match c with
  | NA => false
  | _ => true
  end.

(** [Series.nunique()]: the number of distinct values that are not missing. *)
Definition nunique (s : Series) : nat := length (unique (filter notna s)).

(** [Series.count()]: the number of values that are not missing. *)
Definition count (s : Series) : nat := length (filter notna s).

(** The value a cell adds to a sum: a missing value is skipped, a
    boolean counts as 0 or 1. *)
Definition cell_value (c : cell) : Q :=
  match c with
  | Num x => x
  | Flag true => 1
  | _ => 0
  end.

Definition Qsum (l : list Q) : Q := fold_right Qplus 0 l.

(** [Series.sum()] *)
Definition series_sum (s : Series) : Q := Qsum (map cell_value s).

(** [Series.min()] and [Series.max()] of a datetime column: missing when
    there is no timestamp. *)
Definition series_min (s : Series) : cell :=
  fold_right (fun c acc =>
    match c, acc with
    | Stamp t, Stamp u => Stamp (Z.min t u)
    | Stamp t, _ => Stamp t
    | _, _ => acc
    end) NA s.

Definition series_max (s : Series) : cell :=
  fold_right (fun c acc =>
    match c, acc with
    | Stamp t, Stamp u => Stamp (Z.max t u)
    | Stamp t, _ => Stamp t
    | _, _ => acc
    end) NA s.

(** Thousands separators, on the digits from the least significant one. *)
Fixpoint commas_rev (digits : list ascii) (k : nat) : list ascii :=
  match digits with
  | [] => []
  | c :: digits' =>
      if (k =? 3)%nat then ","%char :: c :: commas_rev digits' 1
      else c :: commas_rev digits' (S k)
  end.

(** [f"{n:,}"] for a natural number. *)
Definition format_int (n : Z) : string :=
  string_of_list_ascii
    (rev (commas_rev (rev (list_ascii_of_string (string_of_Z n))) 0)).

(** Rounding to the nearest integer, ties to even. *)
Definition round_half_even (x : Q) : Z :=
  let f := Qfloor x in
  let r := (x - inject_Z f)%Q in
  if Qltb r (1 # 2) then f
  else if Qltb (1 # 2) r then (f + 1)%Z
  else if Z.even f then f else (f + 1)%Z.

(** [f"{x:,.2f}"] *)
Definition format_2f (x : Q) : string :=
  let cents := round_half_even (Qabs x * 100) in
  (if Qltb x 0 then "-" else "") ++
  format_int (cents / 100) ++ "." ++ zero_pad 2 (string_of_Z (cents mod 100)).

(** [f"${x:,.2f}"]: NaN prints as [nan]; a string or a timestamp has no
    format [f]. *)
Definition format_money (c : cell) : result string :=
  match c with
  | Num x => ok ("$" ++ format_2f x)%string
  | Flag b => ok ("$" ++ format_2f (if b then 1 else 0))%string
  | NA => ok "$nan"
  | Str _ => raise ValueError
  | Stamp _ => raise TypeError
  end.

Definition month_names : list string :=
  ["January"; "February"; "March"; "April"; "May"; "June"; "July";
   "August"; "September"; "October"; "November"; "December"].

(** [strftime('%Y-%m-%d')] *)
Definition strftime_iso (t : Z) : string :=
  let '(y, m, d) := civil_from_days (date_of t) in
  zero_pad 4 (string_of_Z y) ++ "-" ++ zero_pad 2 (string_of_Z m)
    ++ "-" ++ zero_pad 2 (string_of_Z d).

(** [strftime('%B %d, %Y')] *)
Definition strftime_long (t : Z) : string :=
  let '(y, m, d) := civil_from_days (date_of t) in
  nth (Z.to_nat (m - 1)) month_names "" ++ " " ++ zero_pad 2 (string_of_Z d)
    ++ ", " ++ zero_pad 4 (string_of_Z y).

(* ------------------------------------------------------------------ *)
(** ** Filter engine *)

(** What the sidebar widgets return. *)
Record Inputs : Type := mkInputs {
  date_range : Z * Z;              (* two dates, as day numbers *)
  selected_agency : string;
  selected_size : string;
  selected_themes : list string;
  sample : list nat                (* the positions [DataFrame.sample] draws *)
}.

(** [df['action_date'].dt.date >= lo] and [<= hi], on one element; a
    missing date compares false. *)
Definition date_in_range (lo hi : Z) (c : cell) : bool :=
  match c with
  | Stamp t => (lo <=? date_of t)%Z && (date_of t <=? hi)%Z
  | _ => false
  end.

(** [theme_columns]: the columns whose name starts with [theme_]. *)
Definition theme_columns (df : DataFrame) : list string :=
  filter (fun col => PyStr.startswith col "theme_") (columns df).

(** The label shown for a theme column. *)
Definition theme_label (col : string) : string :=
  PyStr.title (PyStr.replace "_" " " (PyStr.replace "theme_" "" col)).

(** The column looked up for a selected label. *)
Definition theme_column (theme : string) : string :=
  "theme_" ++ PyStr.replace " " "_" (PyStr.lower theme).




(** [theme_mask |= df[col]] on one element; the script's theme columns
    are boolean columns. *)
Definition or_flag (m : bool) (c : cell) : result bool :=
  match c with
  | Flag b => ok (m || b)
  | _ => raise TypeError
  end.

(** The loop over [selected_themes]. *)
Fixpoint theme_loop (df : DataFrame) (themes : list string) (theme_mask : list bool)
  : result (list bool) :=
  match themes with
  | [] => ok theme_mask
  | theme :: themes' =>
      col <- getitem df (theme_column theme) ;;
      theme_mask <- mapM (fun p => or_flag (fst p) (snd p)) (combine theme_mask col) ;;
      theme_loop df themes' theme_mask
  end.

Definition theme_mask (df : DataFrame) (themes : list string) : result (list bool) :=
  theme_loop df themes (repeat false (nrows df)).

(** [if selected_themes: ... mask &= theme_mask] *)
Definition apply_themes (df : DataFrame) (themes : list string) (m : list bool)
  : result (list bool) :=
  match themes with
  | [] => ok m
  | _ => tm <- theme_mask df themes ;; ok (zip_with andb m tm)
  end.

(** [mask &= df[col] == selected], unless the selection is ['All']. *)
Definition apply_choice (df : DataFrame) (col selected : string) (m : list bool)
  : result (list bool) :=
  if negb (String.eqb selected "All")
  then a <- getitem df col ;;
       ok (zip_with andb m (map (fun c => py_eq c (Str selected)) a))
  else ok m.

(** The row mask built from the four selections. *)
Definition mask (df : DataFrame) (inp : Inputs) : result (list bool) :=
  action_date <- getitem df "action_date" ;;
  let m := map (date_in_range (fst (date_range inp)) (snd (date_range inp))) action_date in
  m <- apply_choice df "awarding_agency_name" (selected_agency inp) m ;;
  m <- apply_choice df "award_size_category" (selected_size inp) m ;;
  apply_themes df (selected_themes inp) m.

(** One mask below another: it selects no row the other leaves out. *)
Inductive mask_le : list bool -> list bool -> Prop :=
| mask_le_nil : forall m, mask_le [] m
| mask_le_cons : forall b b' m m',
    (b = true -> b' = true) -> mask_le m m' -> mask_le (b :: m) (b' :: m').

Definition filtered_df (df : DataFrame) (inp : Inputs) : result DataFrame :=
  m <- mask df inp ;; ok (boolean_index df m).

(** The selections [wide] ask for no more than the selections [narrow]:
    a date range around the other one, and for the agency, the size and
    the themes either the same choice or no restriction. *)
Definition relaxes (wide narrow : Inputs) : Prop :=
  (fst (date_range wide) <= fst (date_range narrow))%Z /\
  (snd (date_range narrow) <= snd (date_range wide))%Z /\
  (selected_agency wide = "All" \/ selected_agency wide = selected_agency narrow) /\
  (selected_size wide = "All" \/ selected_size wide = selected_size narrow) /\
  (selected_themes wide = [] \/ selected_themes wide = selected_themes narrow).

(* ------------------------------------------------------------------ *)
(** ** Aggregator *)

Section GroupBy.

Context {K : Type} (eq_dec : forall a b : K, {a = b} + {a <> b}) (leb : K -> K -> bool).

(** The keys that are present. *)
Definition somes (keys : list (option K)) : list K :=
  flat_map (fun o => match o with Some k => [k] | None => [] end) keys.

(** The group keys: distinct, sorted ascending; a row whose key is
    missing belongs to no group. *)
Definition group_keys (keys : list (option K)) : list K :=
  sort leb (nodup eq_dec (somes keys)).


Definition in_group (k : K) (o : option K) : bool :=
  match o with
  | Some k' => if eq_dec k k' then true else false
  | None => false
  end.

(** [groupby(keys)]: each key with the values of its rows, in row order. *)
Definition groupby {V : Type} (keys : list (option K)) (vals : list V)
  : list (K * list V) :=
  map (fun k => (k, select (map (in_group k) keys) vals)) (group_keys keys).

End GroupBy.

(** [DataFrame.tail(n)] *)
Definition tail {A : Type} (n : nat) (l : list A) : list A :=
  skipn (length l - n) l.

(** The group key of a row: its agency name; a row without a name (an
    empty field) has no key, and [groupby] drops it. *)
Definition agency_key (c : cell) : option string :=
  match c with
  | Str s => Some s
  | _ => None
  end.

(** The group key of a row of the timeline: the month of its action
    date; a row without a date has no key. *)
Definition month_key (c : cell) : option Z :=
  match c with
  | Stamp t => Some (to_period_M t)
  | _ => None
  end.

(** The per-agency totals, in key order: [groupby(...)['award_amount'].sum()]. *)
Definition agency_totals (agency amount : Series) : list (string * Q) :=
  map (fun g => (fst g, series_sum (snd g)))
      (groupby string_dec String.leb (map agency_key agency) amount).

(** [sort_values(ascending=True)] on the totals; rows of equal total keep
    their order. *)
Definition sort_values (totals : list (string * Q)) : list (string * Q) :=
  sort (fun a b => Qle_bool (snd a) (snd b)) totals.

Definition top_10_agencies (filtered : DataFrame) : result (list (string * Q)) :=
  agency <- getitem filtered "awarding_agency_name" ;;
  amount <- getitem filtered "award_amount" ;;
  ok (tail 10 (sort_values (agency_totals agency amount))).

(** The monthly groups with the month as a number:
    [agg({'award_amount': 'sum', 'award_id': 'count'})]. *)
Definition timeline_groups (action_date amount award_id : Series)
  : list (Z * Q * nat) :=
  map (fun g => (fst g, series_sum (map fst (snd g)), count (map snd (snd g))))
      (groupby Z.eq_dec Z.leb (map month_key action_date) (combine amount award_id)).

Definition timeline_data (filtered : DataFrame) : result (list (string * Q * nat)) :=
  action_date <- getitem filtered "action_date" ;;
  amount <- getitem filtered "award_amount" ;;
  award_id <- getitem filtered "award_id" ;;
  ok (map (fun r => (period_str (fst (fst r)), snd (fst r), snd r))
          (timeline_groups action_date amount award_id)).

(** [filtered_df[theme_columns].sum()] with its index relabelled. *)
Definition theme_data (filtered : DataFrame) (theme_cols : list string)
  : result (list (string * Q)) :=
  cols <- getitems filtered theme_cols ;;
  ok (map (fun c => (theme_label (fst c), series_sum (snd c))) cols).

(* ------------------------------------------------------------------ *)
(** ** Presenter: what the script shows, in order *)

Inductive message : Type :=
| ErrorLoadingData (e : exn)     (* f"Error loading data: {str(e)}" *)
| UnableToLoadData.              (* "Unable to load data. Please check ..." *)

Inductive ui_event : Type :=
| PageConfig
| Markup                                        (* st.markdown: style sheet or spacing *)
| Title (text : string)
| Subheader (text : string)
| DateInput (min_date max_date : cell)
| Selectbox (label : string) (options : list cell)
| Multiselect (label : string) (options : list string)
| Metric (label value : string)
| BarChart (title : string) (series : list (string * Q))
| LineChart (title : string) (series : list (string * Q))
| Table (cols : list (string * Series))
| AwardCard (amount : string) (recipient : cell) (award_date : string) (description : cell)
| StError (m : message).

(** A run of the script: what it has shown so far, and either a value or
    the exception that stopped it. *)
Definition ui (A : Type) : Type := (list ui_event * result A)%type.

Definition ui_ret {A : Type} (a : A) : ui A := ([], ok a).

Definition ui_bind {A B : Type} (m : ui A) (f : A -> ui B) : ui B :=
  match m with
  | (out, inl e) => (out, inl e)
  | (out, inr a) => let (out', r) := f a in (out ++ out', r)
  end.

Definition emit (e : ui_event) : ui unit := ([e], ok tt).

Definition lift {A : Type} (r : result A) : ui A := ([], r).

Notation "x <~ m ;; k" := (ui_bind m (fun x => k))
  (at level 61, m at next level, right associativity).
Notation "m ;;; k" := (ui_bind m (fun _ => k))
  (at level 61, right associativity).

Fixpoint ui_iter {A : Type} (f : A -> ui unit) (l : list A) : ui unit :=
  match l with
  | [] => ui_ret tt
  | a :: l' => f a ;;; ui_iter f l'
  end.

Definition sidebar (df : DataFrame) : ui (list string) :=
  emit (Title "Filters") ;;;
  emit Markup ;;;
  emit (Subheader "Date Range") ;;;
  action_date <~ lift (getitem df "action_date") ;;
  emit (DateInput (series_min action_date) (series_max action_date)) ;;;
  agency <~ lift (getitem df "awarding_agency_name") ;;
  agencies <~ lift (sorted (unique agency)) ;;
  emit (Selectbox "Select Agency" (Str "All" :: agencies)) ;;;
  size <~ lift (getitem df "award_size_category") ;;
  award_sizes <~ lift (sorted (unique size)) ;;
  emit (Selectbox "Select Award Size" (Str "All" :: award_sizes)) ;;;
  let theme_cols := theme_columns df in
  emit (Multiselect "Select DEI Themes" (map theme_label theme_cols)) ;;;
  ui_ret theme_cols.

Definition display_cols : list string :=
  ["award_id"; "recipient_name"; "awarding_agency_name";
   "award_amount"; "action_date"; "award_description"].

(** [sort_values('action_date', ascending=False)]: the row positions,
    latest first, missing dates last. *)
Definition later_or_equal (a b : cell) : bool :=
  match a, b with
  | Stamp t, Stamp u => (u <=? t)%Z
  | Stamp _, _ => true
  | _, Stamp _ => false
  | _, _ => true
  end.

Definition argsort_desc (s : Series) : list nat :=
  map fst (sort (fun a b => later_or_equal (snd a) (snd b))
                (combine (seq 0 (length s)) s)).

Definition take (positions : list nat) (s : Series) : Series :=
  map (fun i => nth i s NA) positions.

(** [x.strftime(fmt)] on a cell of a datetime column. *)
Definition strftime (fmt : Z -> string) (c : cell) : result string :=
  match c with
  | Stamp t => ok (fmt t)
  | NA => raise ValueError
  | _ => raise AttributeError
  end.

(** [.style.format({'award_amount': '${:,.2f}', 'action_date': ...})] *)
Definition format_column (name : string) (s : Series) : result Series :=
  if String.eqb name "award_amount"
  then mapM (fun c => v <- format_money c ;; ok (Str v)) s
  else if String.eqb name "action_date"
  then mapM (fun c => v <- strftime strftime_iso c ;; ok (Str v)) s
  else ok s.

Definition detailed_table (filtered : DataFrame) : result (list (string * Series)) :=
  cols <- getitems filtered display_cols ;;
  action_date <- getitem filtered "action_date" ;;
  let order := argsort_desc action_date in
  mapM (fun c => s <- format_column (fst c) (take order (snd c)) ;; ok (fst c, s)) cols.

(** The description shown on a card: the first 500 words and a marker
    when there are more.  A missing description is a float NaN, which is
    true and has no [len()]. *)
Definition truncate (description : string) : string :=
  if (500 <? String.length description)%nat then
    let words := PyStr.split description in
    if (500 <? length words)%nat
    then (PyStr.join " " (firstn 500 words) ++ "...")%string
    else description
  else description.

Definition card_description (c : cell) : result cell :=
  match c with
  | Str s => ok (Str (truncate s))
  | Flag false => ok c
  | Num x => if Qeq_bool x 0 then ok c else raise TypeError
  | _ => raise TypeError
  end.

(** [filtered_df.sample(n=min(5, len(filtered_df)))]: the positions drawn. *)
Definition random_awards (filtered : DataFrame) (drawn : list nat) : list nat :=
  firstn (Nat.min 5 (nrows filtered))
         (filter (fun p => (p <? nrows filtered)%nat) drawn).

Definition award_card (filtered : DataFrame) (p : nat) : ui unit :=
  descriptions <~ lift (getitem filtered "award_description") ;;
  description <~ lift (card_description (nth p descriptions NA)) ;;
  dates <~ lift (getitem filtered "action_date") ;;
  award_date <~ lift (strftime strftime_long (nth p dates NA)) ;;
  amounts <~ lift (getitem filtered "award_amount") ;;
  amount <~ lift (format_money (nth p amounts NA)) ;;
  recipients <~ lift (getitem filtered "recipient_name") ;;
  emit (AwardCard amount (nth p recipients NA) award_date description).

(** Everything below "Main dashboard": metrics, charts, table, feed. *)
Definition views (filtered : DataFrame) (theme_cols : list string) (drawn : list nat)
  : ui unit :=
  emit (Title "Federal DEI Contracts Dashboard Jan. 2023 to Feb. 2025") ;;;
  emit Markup ;;;
  emit Markup ;;;
  emit (Metric "Total Contracts" (format_int (Z.of_nat (nrows filtered)))) ;;;
  amount <~ lift (getitem filtered "award_amount") ;;
  emit (Metric "Total Award Amount" ("$" ++ format_2f (series_sum amount))%string) ;;;
  recipient <~ lift (getitem filtered "recipient_name") ;;
  emit (Metric "Unique Recipients" (format_int (Z.of_nat (nunique recipient)))) ;;;
  emit Markup ;;;
  emit (Subheader "DEI Themes Distribution") ;;;
  themes <~ lift (theme_data filtered theme_cols) ;;
  emit (BarChart "Number of Contracts by DEI Theme" themes) ;;;
  emit Markup ;;;
  emit (Subheader "Award Amount Distribution by Top 10 Agencies") ;;;
  top <~ lift (top_10_agencies filtered) ;;
  emit (BarChart "Total Award Amount by Top 10 Agencies" top) ;;;
  emit Markup ;;;
  emit (Subheader "Timeline of Awards") ;;;
  timeline <~ lift (timeline_data filtered) ;;
  emit (LineChart "Monthly Award Amounts" (map fst timeline)) ;;;
  emit Markup ;;;
  emit Markup ;;;
  emit (Subheader "Detailed Contract Data") ;;;
  table <~ lift (detailed_table filtered) ;;
  emit (Table table) ;;;
  emit Markup ;;;
  emit (Subheader "Featured Awards") ;;;
  emit Markup ;;;
  ui_iter (award_card filtered) (random_awards filtered drawn).

Definition dashboard (df : DataFrame) (inp : Inputs) : ui unit :=
  theme_cols <~ sidebar df ;;
  filtered <~ lift (filtered_df df inp) ;;
  views filtered theme_cols (sample inp).

Section App.

Variable parse_datetime : string -> option Z.
Variable parse_float : string -> option Q.

(** [load_data]: the exception of the [try] block is caught, shown, and
    turned into [None]. *)
Definition load_data (csv : result DataFrame) : ui (option DataFrame) :=
  match load_data_try parse_datetime parse_float csv with
  | inr df => ui_ret (Some df)
  | inl e => emit (StError (ErrorLoadingData e)) ;;; ui_ret None
  end.

(** The script, top to bottom. *)
Definition app (csv : result DataFrame) (inp : Inputs) : ui unit :=
  emit PageConfig ;;;
  emit Markup ;;;
  df <~ load_data csv ;;
  match df with
  | Some df => dashboard df inp
  | None => emit (StError UnableToLoadData)
  end.

End App.

(** How many of the events a run has shown are of one sort. *)
Definition is_card (e : ui_event) : bool :=
  match e with
  | AwardCard _ _ _ _ => true
  | _ => false
  end.

Definition is_error (e : ui_event) : bool :=
  match e with
  | StError _ => true
  | _ => false
  end.

Definition shown {A : Type} (sort : ui_event -> bool) (m : ui A) : nat :=
  length (filter sort (fst m)).

(* ------------------------------------------------------------------ *)
(** ** Tables the dashboard runs on without an exception *)


Definition is_flag (c : cell) : Prop := exists b, c = Flag b.



(** A clean file: what [read_csv] returns holds, in every row, an
    action date that parses to a timestamp, an amount that parses to a
    number, an agency and a description; the two contract dates parse
    where they are given; and the size categories are either in the
    file, as strings, or can be derived, every amount being above zero. *)
Section CleanFile.

Variable parse_datetime : string -> option Z.
Variable parse_float : string -> option Q.





End CleanFile.

(* ------------------------------------------------------------------ *)
(** ** Literals: the scalar parsers on plain decimals and ISO dates

    The examples run the loader with these two parsers.  They accept a
    part of what [float()] and [pd.to_datetime] accept (a signed decimal
    number; a date [YYYY-MM-DD]) and agree with them on it. *)

Module Literals.

Definition digit (c : ascii) : option Z :=
  let n := N_of_ascii c in
  if (48 <=? n)%N && (n <=? 57)%N then Some (Z.of_N (n - 48)) else None.

(** The leading digits of [s]: their value after [acc], how many were
    read after [n], and the rest of the string. *)
Fixpoint digits (acc : Z) (n : nat) (s : string) : Z * nat * string :=
  match s with
  | EmptyString => (acc, n, s)
  | String c s' =>
      match digit c with
      | Some d => digits (10 * acc + d)%Z (S n) s'
      | None => (acc, n, s)
      end
  end.

Definition decimal (s : string) : option Q :=
  let '(negative, s1) :=
    match s with
    | String "-"%char r => (true, r)
    | String "+"%char r => (false, r)
    | _ => (false, s)
    end in
  let '(i, ni, s2) := digits 0 0 s1 in
  let '(f, nf, s3) :=
    match s2 with
    | String "."%char r => digits 0 0 r
    | _ => (0%Z, 0%nat, s2)
    end in
  match s3 with
  | EmptyString =>
      if (ni + nf =? 0)%nat then None
      else
        let scale := (10 ^ Z.of_nat nf)%Z in
        let q := ((i * scale + f) # Z.to_pos scale)%Q in
        Some (Qred (if negative then - q else q))
  | _ => None
  end.

Definition number (width : nat) (s : string) : option Z :=
  match digits 0 0 s with
  | (v, n, EmptyString) => if (n =? width)%nat then Some v else None
  | _ => None
  end.

Definition iso_date (s : string) : option Z :=
  match number 4 (substring 0 4 s), substring 4 1 s,
        number 2 (substring 5 2 s), substring 7 1 s,
        number 2 (substring 8 2 s) with
  | Some y, "-", Some m, "-", Some d =>
      let days := days_from_civil y m d in
      let '(y', m', d') := civil_from_days days in
      if (String.length s =? 10)%nat && (y =? y')%Z && (m =? m')%Z && (d =? d')%Z
      then Some (days * ns_per_day)%Z
      else None
  | _, _, _, _, _ => None
  end.

End Literals.

(* ------------------------------------------------------------------ *)
(** ** The loader's contract

    [loaded raw df]: what a successful [load_data] has read from the
    frame [raw] of [read_csv] and what it has put into [df]. *)

Section LoaderContract.

Variable parse_datetime : string -> option Z.
Variable parse_float : string -> option Q.

(** The column [name] of [df] is the column of [raw] with [f] applied
    to it as a whole. *)
Definition converted (f : Series -> result Series) (raw df : DataFrame) (name : string)
  : Prop :=
  exists s s', getitem raw name = inr s /\ f s = inr s' /\ getitem df name = inr s'.

(** The column [name] of [df] is the one of [raw] when [raw] has it, and
    otherwise the column [derived] from columns of [df]. *)
Definition kept_or_derived (raw df : DataFrame) (name : string)
    (derived : result Series) : Prop :=
  getitem df name =
  if has_column raw name then getitem raw name else derived.

Definition loader_columns : list string :=
  ["action_date"; "contract_start_date"; "contract_end_date"; "award_amount";
   "awarding_agency_name"; "contract_duration_days"; "award_size_category"].

Record loaded (raw df : DataFrame) : Prop := mkLoaded {
  same_index : nrows df = nrows raw;
  put_dates :
    forall name, In name date_columns ->
      converted (mapM (to_datetime parse_datetime)) raw df name;
  put_amount :
    converted (fun s => mapM (astype_float parse_float) (map regex_replace s))
              raw df "award_amount";
  put_agency :
    converted (fun s => ok (map replace_values s)) raw df "awarding_agency_name";
  put_duration :
    kept_or_derived raw df "contract_duration_days"
      (e <- getitem df "contract_end_date" ;;
       s <- getitem df "contract_start_date" ;;
       ok (zip_with days_between e s));
  put_size :
    kept_or_derived raw df "award_size_category"
      (a <- getitem df "award_amount" ;; ok (map (cut bins labels) a));
  other_columns :
    forall name,
      existsb (String.eqb name) loader_columns = false ->
      getitem df name = getitem raw name;
  all_columns :
    forall name,
      has_column df name =
      has_column raw name || String.eqb name "contract_duration_days"
                          || String.eqb name "award_size_category"
}.

End LoaderContract.

(* ------------------------------------------------------------------ *)
(** ** Sample inputs *)

Module Examples.

(** A frame as [read_csv] returns it: the eight required columns, one
    row per list position, and extra columns. *)
Definition frame (award_id recipient agency amount action starts ends description : Series)
    (extra : list (string * Series)) : DataFrame :=
  {| nrows := length award_id;
     data := [ ("award_id", award_id);
               ("recipient_name", recipient);
               ("awarding_agency_name", agency);
               ("award_amount", amount);
               ("action_date", action);
               ("contract_start_date", starts);
               ("contract_end_date", ends);
               ("award_description", description) ] ++ extra |}.

Definition load (raw : DataFrame) : result DataFrame :=
  load_data_try Literals.iso_date Literals.decimal (inr raw).

Definition run (raw : DataFrame) (inp : Inputs) : ui unit :=
  app Literals.iso_date Literals.decimal (inr raw) inp.

(** Every row, no restriction. *)
Definition everything : Inputs :=
  {| date_range := (0, 100000)%Z;
     selected_agency := "All";
     selected_size := "All";
     selected_themes := [];
     sample := [] |}.

(** A date range before every award: no row. *)
Definition nothing : Inputs :=
  {| date_range := (0, 0)%Z;
     selected_agency := "All";
     selected_size := "All";
     selected_themes := [];
     sample := [] |}.

(** Three awards, two themes. *)
Definition csv : DataFrame :=
  frame [Str "A1"; Str "A2"; Str "A3"]
        [Str "Acme"; Str "Beta"; Str "Acme"]
        [Str "Department of Justice (DOJ)"; Str "Department of Justice"; Str "Dept X"]
        [Str "$1,000.50"; Str "25000"; Num 5]
        [Str "2023-01-15"; Str "2023-02-01"; Str "2023-01-20"]
        [Str "2023-01-15"; Str "2023-02-01"; NA]
        [Str "2024-01-15"; Str "2023-03-01"; Str "2023-01-20"]
        [Str "d1"; Str "d2"; Str "d3"]
        [ ("theme_gender", [Flag true; Flag false; Flag false]);
          ("theme_race_equity", [Flag false; Flag false; Flag true]) ].

(** The same awards with both derived columns already in the file. *)
Definition csv_with_derived : DataFrame :=
  frame [Str "A1"; Str "A2"; Str "A3"]
        [Str "Acme"; Str "Beta"; Str "Acme"]
        [Str "Department of Justice (DOJ)"; Str "Department of Justice"; Str "Dept X"]
        [Str "$1,000.50"; Str "25000"; Num 5]
        [Str "2023-01-15"; Str "2023-02-01"; Str "2023-01-20"]
        [Str "2023-01-15"; Str "2023-02-01"; NA]
        [Str "2024-01-15"; Str "2023-03-01"; Str "2023-01-20"]
        [Str "d1"; Str "d2"; Str "d3"]
        [ ("contract_duration_days", [Num 1; Num 2; Num 3]);
          ("award_size_category", [Str "S"; Str "M"; Str "L"]) ].

(** Amounts on and next to the bin edges. *)
Definition csv_edges : DataFrame :=
  frame [Str "A1"; Str "A2"; Str "A3"; Str "A4"]
        [Str "Acme"; Str "Beta"; Str "Acme"; Str "Beta"]
        [Str "Dept X"; Str "Dept X"; Str "Dept X"; Str "Dept X"]
        [Str "9999.99"; Str "10000"; Str "$10,000,000"; Str "0"]
        [Str "2023-01-15"; Str "2023-02-01"; Str "2023-01-20"; Str "2023-01-21"]
        [NA; NA; NA; NA]
        [NA; NA; NA; NA]
        [Str "d1"; Str "d2"; Str "d3"; Str "d4"]
        [].

(** One award with a negative amount. *)
Definition csv_negative : DataFrame :=
  frame [Str "A1"] [Str "Acme"] [Str "Dept X"] [Str "-$5"]
        [Str "2023-01-15"] [NA] [NA] [Str "d1"] [].

(** One award whose amount is not a number. *)
Definition csv_text_amount : DataFrame :=
  frame [Str "A1"] [Str "Acme"] [Str "Dept X"] [Str "$1,2x0"]
        [Str "2023-01-15"] [NA] [NA] [Str "d1"] [].

(** One award whose action date is not a date. *)
Definition csv_bad_date : DataFrame :=
  frame [Str "A1"] [Str "Acme"] [Str "Dept X"] [Str "5"]
        [Str "yesterday"] [NA] [NA] [Str "d1"] [].

(** A file without the column [award_id]. *)
Definition csv_no_award_id : DataFrame :=
  {| nrows := 1;
     data := [ ("recipient_name", [Str "Acme"]);
               ("awarding_agency_name", [Str "Dept X"]);
               ("award_amount", [Str "5"]);
               ("action_date", [Str "2023-01-15"]);
               ("contract_start_date", [NA]);
               ("contract_end_date", [NA]);
               ("award_description", [Str "d1"]) ] |}.

(** A loaded frame, or the empty frame when the load fails. *)
Definition the_frame (r : result DataFrame) : DataFrame :=
  match r with
  | inr df => df
  | inl _ => {| nrows := 0; data := [] |}
  end.

Definition loaded_csv : DataFrame := Eval vm_compute in the_frame (load csv).

Definition loaded_csv_edges : DataFrame := Eval vm_compute in the_frame (load csv_edges).




Definition gender_selected : Inputs :=
  {| date_range := (0, 100000)%Z;
     selected_agency := "All";
     selected_size := "All";
     selected_themes := ["Gender"];
     sample := [] |}.


(** One row with [theme_a] set and [theme_b] not set. *)
Definition one_row_a_not_b : DataFrame :=
  {| nrows := 1;
     data := [ ("theme_a", [Flag true]); ("theme_b", [Flag false]) ] |}.

(** The rows the filter keeps, or the empty frame when it fails. *)
Definition filtered (raw : DataFrame) (inp : Inputs) : DataFrame :=
  the_frame (df <- load raw ;; filtered_df df inp).

Definition loaded_csv_with_derived : DataFrame :=
  Eval vm_compute in the_frame (load csv_with_derived).

End Examples.

(* ------------------------------------------------------------------ *)
(** * Properties *)

(** Membership in a list that computes. *)
Ltac find_in := vm_compute; repeat (first [left; reflexivity | right]).

(** ** The exception monad *)

Lemma bind_inr {A B : Type} (m : result A) (f : A -> result B) (b : B) :
  bind m f = inr b -> exists a, m = inr a /\ f a = inr b.
Proof.
  destruct m as [e | a]; simpl; intros H; [discriminate | eauto].
Qed.

Ltac inv_bind H :=
  let a := fresh "a" in
  let Ha := fresh "Ha" in
  apply bind_inr in H; destruct H as (a & Ha & H).

Lemma mapM_inr_Forall2 {A B : Type} (f : A -> result B) (l : list A) (l' : list B) :
  mapM f l = inr l' <-> Forall2 (fun a b => f a = inr b) l l'.
Proof.
  revert l'; induction l as [| a l IH]; intros l'; simpl.
  - split; intros H.
    + inversion H; constructor.
    + inversion H; reflexivity.
  - split; intros H.
    + inv_bind H. inv_bind H. inversion H; subst.
      constructor; [assumption | apply IH; assumption].
    + inversion H as [| ? b ? bs Hab Hl]; subst.
      rewrite Hab; simpl. apply IH in Hl. rewrite Hl. reflexivity.
Qed.

Lemma mapM_inr_length {A B : Type} (f : A -> result B) (l : list A) (l' : list B) :
  mapM f l = inr l' -> length l' = length l.
Proof.
  intros H. apply mapM_inr_Forall2 in H.
  induction H; simpl; congruence.
Qed.

Lemma mapM_inr_In {A B : Type} (f : A -> result B) (l : list A) (l' : list B) (a : A) :
  mapM f l = inr l' -> In a l -> exists b, f a = inr b /\ In b l'.
Proof.
  intros H. apply mapM_inr_Forall2 in H.
  induction H as [| x y l l' Hxy _ IH]; simpl; intros Hin; [contradiction |].
  destruct Hin as [-> | Hin]; [eauto |].
  destruct (IH Hin) as (b & Hb & Hb'); eauto.
Qed.


(** ** Frames: reading after writing *)

Lemma lookup_assign (name name' : string) (s : Series) (cols : list (string * Series)) :
  lookup name' (assign name s cols) =
  if String.eqb name name' then Some s else lookup name' cols.
Proof.
  induction cols as [| [n s0] cols IH]; simpl.
  - reflexivity.
  - destruct (String.eqb n name) eqn:E; simpl.
    + apply String.eqb_eq in E; subst n.
      destruct (String.eqb name name'); reflexivity.
    + destruct (String.eqb n name') eqn:E'.
      * apply String.eqb_eq in E'; subst n.
        rewrite String.eqb_sym, E. reflexivity.
      * exact IH.
Qed.

Lemma getitem_setitem (df : DataFrame) (name name' : string) (s : Series) :
  getitem (setitem df name s) name' =
  if String.eqb name name' then inr s else getitem df name'.
Proof.
  unfold getitem, setitem; simpl. rewrite lookup_assign.
  destruct (String.eqb name name'); reflexivity.
Qed.

Lemma has_column_lookup (df : DataFrame) (name : string) :
  has_column df name =
  match lookup name (data df) with Some _ => true | None => false end.
Proof.
  unfold has_column, columns.
  induction (data df) as [| [n s] cols IH]; simpl; [reflexivity |].
  rewrite String.eqb_sym. destruct (String.eqb n name); [reflexivity | exact IH].
Qed.

Lemma has_column_setitem (df : DataFrame) (name name' : string) (s : Series) :
  has_column (setitem df name s) name' = String.eqb name name' || has_column df name'.
Proof.
  rewrite !has_column_lookup. unfold setitem; simpl. rewrite lookup_assign.
  destruct (String.eqb name name'); reflexivity.
Qed.

Lemma has_column_getitem (df : DataFrame) (name : string) :
  has_column df name = true <-> exists s, getitem df name = inr s.
Proof.
  rewrite has_column_lookup. unfold getitem.
  destruct (lookup name (data df)); split; intros H; eauto;
    try discriminate; destruct H as (s & H); discriminate.
Qed.

Lemma has_column_In (df : DataFrame) (name : string) :
  has_column df name = true <-> In name (columns df).
Proof.
  unfold has_column. rewrite existsb_exists. split.
  - intros (x & Hx & E). apply String.eqb_eq in E. subst. assumption.
  - intros H. exists name. split; [assumption | apply String.eqb_refl].
Qed.

(** ** The loader *)

(** Comparison of two column names that are both literals. *)
Ltac eval_eqb :=
  repeat match goal with
  | |- context [String.eqb ?a ?b] =>
      let v := eval compute in (String.eqb a b) in
      match v with
      | true => change (String.eqb a b) with true
      | false => change (String.eqb a b) with false
      end
  end;
  cbv beta iota; cbn [orb andb negb bind ok raise].

Ltac read_back :=
  repeat (rewrite getitem_setitem || rewrite has_column_setitem); eval_eqb.

Ltac name_cases name :=
  repeat match goal with
  | |- context [String.eqb ?lit name] =>
      let E := fresh "E" in
      destruct (String.eqb lit name) eqn:E;
      [apply String.eqb_eq in E; subst name | ]; eval_eqb
  end.

Section LoaderFacts.

Variable parse_datetime : string -> option Z.
Variable parse_float : string -> option Q.

(** A successful load has read the five columns it needs and has written
    the frame described by [loaded]. *)
Lemma load_data_try_inr (csv : result DataFrame) (df : DataFrame) :
  load_data_try parse_datetime parse_float csv = inr df ->
  exists raw, csv = inr raw /\ loaded parse_datetime parse_float raw df.
Proof.
  unfold load_data_try. intros H.
  inv_bind H. rename a into raw. exists raw. split; [assumption |].
  inv_bind H. rename a into d1, Ha0 into Hd.
  inv_bind H. rename a into d2, Ha0 into Hm.
  inv_bind H. rename a into d3, Ha0 into Hg.
  inv_bind H. rename a into d4, Ha0 into Hdur.
  inv_bind H. rename a into d5, Ha0 into Hsize.
  inversion H; subst d5; clear H.
  (* the three date columns *)
  unfold date_columns in Hd; cbn [convert_dates] in Hd.
  inv_bind Hd. rename a into a0, Ha0 into Ra.
  inv_bind Hd. rename a into a, Ha0 into Pa.
  inv_bind Hd. rename a1 into s0, Ha0 into Rs.
  inv_bind Hd. rename a1 into s, Ha0 into Ps.
  inv_bind Hd. rename a1 into e0, Ha0 into Re.
  inv_bind Hd. rename a1 into e, Ha0 into Pe.
  inversion Hd; subst d1; clear Hd.
  revert Rs Re; read_back; intros Rs Re.
  (* the amount and the agency *)
  unfold convert_amount in Hm.
  inv_bind Hm. rename a1 into m0, Ha0 into Rm.
  inv_bind Hm. rename a1 into m, Ha0 into Pm.
  inversion Hm; subst d2; clear Hm.
  revert Rm; read_back; intros Rm.
  unfold consolidate_agencies in Hg.
  inv_bind Hg. rename a1 into g0, Ha0 into Rg.
  inversion Hg; subst d3; clear Hg.
  revert Rg; read_back; intros Rg.
  assert (Ca : has_column raw "action_date" = true) by (apply has_column_getitem; eauto).
  assert (Cs : has_column raw "contract_start_date" = true) by (apply has_column_getitem; eauto).
  assert (Ce : has_column raw "contract_end_date" = true) by (apply has_column_getitem; eauto).
  assert (Cm : has_column raw "award_amount" = true) by (apply has_column_getitem; eauto).
  assert (Cg : has_column raw "awarding_agency_name" = true) by (apply has_column_getitem; eauto).
  (* the two derived columns *)
  unfold add_duration in Hdur. revert Hdur; read_back.
  unfold add_size_category in Hsize.
  destruct (has_column raw "contract_duration_days") eqn:Edur; eval_eqb; intros Hdur;
    inversion Hdur; subst d4; clear Hdur;
    revert Hsize; read_back;
    destruct (has_column raw "award_size_category") eqn:Esize; eval_eqb; intros Hsize;
    inversion Hsize; subst df; clear Hsize.
  all: constructor;
    [ reflexivity
    | intros name Hin; unfold date_columns in Hin; cbn [In] in Hin; unfold converted;
      repeat (destruct Hin as [<- | Hin];
              [read_back; do 2 eexists; split; [eassumption | split; [eassumption | reflexivity]] |]);
      contradiction
    | unfold converted; read_back;
      do 2 eexists; split; [eassumption | split; [eassumption | reflexivity]]
    | unfold converted; read_back;
      do 2 eexists; split; [eassumption | split; reflexivity]
    | unfold kept_or_derived; read_back; rewrite Edur; eval_eqb; reflexivity
    | unfold kept_or_derived; read_back; rewrite Esize; eval_eqb; reflexivity
    | intros name Hn; unfold loader_columns in Hn; cbn [existsb] in Hn;
      repeat rewrite orb_false_iff in Hn;
      destruct Hn as (? & ? & ? & ? & ? & ? & ? & _);
      read_back; rewrite !(String.eqb_sym _ name);
      repeat match goal with E : String.eqb name _ = false |- _ => rewrite E; clear E end;
      reflexivity
    | intros name; read_back;
      rewrite (String.eqb_sym name "contract_duration_days");
      rewrite (String.eqb_sym name "award_size_category");
      name_cases name;
      rewrite ?Ca, ?Cs, ?Ce, ?Cm, ?Cg, ?Edur, ?Esize, ?orb_true_r, ?orb_false_r;
      reflexivity ].
Qed.

End LoaderFacts.

Section LoaderClaims.

Variable parse_datetime : string -> option Z.
Variable parse_float : string -> option Q.

Lemma load_data_try_inl_or_inr (csv : result DataFrame) :
  (forall df, load_data_try parse_datetime parse_float csv <> inr df) -> exists e, load_data_try parse_datetime parse_float csv = inl e.
Proof.
  intros H. destruct (load_data_try parse_datetime parse_float csv) as [e | df]; [eauto | exfalso; eapply H; reflexivity].
Qed.


End LoaderClaims.

(** ** Selections *)

Lemma length_select {A B : Type} (m : list bool) (l1 : list A) (l2 : list B) :
  length l1 = length l2 -> length (select m l1) = length (select m l2).
Proof.
  revert l1 l2. induction m as [| b m IH]; intros [| a l1] [| c l2] H;
    simpl in *; try reflexivity; try discriminate.
  injection H as H. destruct b; simpl; auto.
Qed.

Lemma select_map {A B : Type} (f : A -> B) (m : list bool) (l : list A) :
  select m (map f l) = map f (select m l).
Proof.
  revert l. induction m as [| b m IH]; intros [| a l]; simpl; try reflexivity.
  destruct b; simpl; rewrite IH; reflexivity.
Qed.

Lemma select_combine {A B : Type} (m : list bool) (l1 : list A) (l2 : list B) :
  select m (combine l1 l2) = combine (select m l1) (select m l2).
Proof.
  revert l1 l2. induction m as [| b m IH]; intros [| a l1] [| c l2]; simpl;
    try reflexivity.
  - destruct b; [| destruct (select m l1)]; reflexivity.
  - destruct b; simpl; rewrite IH; reflexivity.
Qed.


Lemma select_all_true {A B : Type} (keys : list B) (l : list A) :
  length keys = length l -> select (map (fun _ => true) keys) l = l.
Proof.
  revert l. induction keys as [| k keys IH]; intros [| a l] H; simpl in *;
    try reflexivity; try discriminate.
  rewrite IH; [reflexivity | congruence].
Qed.



Lemma mask_le_refl (m : list bool) : mask_le m m.
Proof. induction m; constructor; auto. Qed.

Lemma mask_le_trans (a b c : list bool) : mask_le a b -> mask_le b c -> mask_le a c.
Proof.
  intros Hab. revert c. induction Hab as [| x y m m' Hxy _ IH]; intros c Hbc.
  - constructor.
  - inversion Hbc; subst. constructor; auto.
Qed.

Lemma mask_le_zip_andb (m x : list bool) : mask_le (zip_with andb m x) m.
Proof.
  unfold zip_with. revert x. induction m as [| b m IH]; intros [| c x]; simpl;
    try constructor.
  - intros H. apply andb_true_iff in H. tauto.
  - apply IH.
Qed.


(** ** Sorting *)

Section SortFacts.

Context {A : Type} (leb : A -> A -> bool).

Lemma insert_perm (x : A) (l : list A) : Permutation (insert leb x l) (x :: l).
Proof.
  induction l as [| y l IH]; simpl; [apply Permutation_refl |].
  destruct (leb x y); [apply Permutation_refl |].
  eapply Permutation_trans; [apply perm_skip, IH | apply perm_swap].
Qed.

Lemma sort_perm (l : list A) : Permutation (sort leb l) l.
Proof.
  induction l as [| x l IH]; simpl; [constructor |].
  eapply Permutation_trans; [apply insert_perm | apply perm_skip, IH].
Qed.

Lemma sort_length (l : list A) : length (sort leb l) = length l.
Proof. apply Permutation_length, sort_perm. Qed.

Hypothesis leb_total : forall a b, leb a b = false -> leb b a = true.
Hypothesis leb_trans : forall a b c, leb a b = true -> leb b c = true -> leb a c = true.

Lemma insert_sorted (x : A) (l : list A) :
  StronglySorted (fun a b => leb a b = true) l ->
  StronglySorted (fun a b => leb a b = true) (insert leb x l).
Proof.
  induction 1 as [| y l Hl IH Hy]; simpl.
  - repeat constructor.
  - destruct (leb x y) eqn:E.
    + constructor; [constructor; assumption |].
      constructor; [assumption |].
      eapply Forall_impl; [| exact Hy]. intros a Ha. eapply leb_trans; eassumption.
    + constructor; [assumption |].
      eapply Permutation_Forall; [apply Permutation_sym, insert_perm |].
      constructor; [apply leb_total; assumption | assumption].
Qed.

Lemma sort_sorted (l : list A) : StronglySorted (fun a b => leb a b = true) (sort leb l).
Proof.
  induction l as [| x l IH]; simpl; [constructor | apply insert_sorted, IH].
Qed.

End SortFacts.




(** ** Sums and counts *)












(** ** Grouping *)

Section GroupFacts.

Context {K : Type} (eq_dec : forall a b : K, {a = b} + {a <> b}) (leb : K -> K -> bool).





Lemma group_keys_length (keys : list (option K)) :
  length (group_keys eq_dec leb keys) = length (nodup eq_dec (somes keys)).
Proof. apply sort_length. Qed.





End GroupFacts.


Lemma map_fst_combine {A B : Type} (l1 : list A) (l2 : list B) :
  length l1 = length l2 -> map fst (combine l1 l2) = l1.
Proof.
  revert l2. induction l1 as [| a l1 IH]; intros [| b l2] H; simpl in *;
    try reflexivity; try discriminate.
  rewrite IH; [reflexivity | congruence].
Qed.




(** ** Frames: rows selected by a mask *)

Lemma lookup_In (name : string) (cols : list (string * Series)) (s : Series) :
  lookup name cols = Some s -> In (name, s) cols.
Proof.
  induction cols as [| [n s0] cols IH]; simpl; [discriminate |].
  destruct (String.eqb n name) eqn:E.
  - apply String.eqb_eq in E. intros [= <-]. subst. auto.
  - auto.
Qed.

Lemma getitem_length (df : DataFrame) (name : string) (s : Series) :
  well_formed df -> getitem df name = inr s -> length s = nrows df.
Proof.
  intros [Hlen _]. unfold getitem.
  destruct (lookup name (data df)) as [s0 |] eqn:E; [| discriminate].
  intros [= <-]. apply lookup_In in E.
  rewrite Forall_forall in Hlen. exact (Hlen _ E).
Qed.

Lemma lookup_map_select (m : list bool) (name : string) (cols : list (string * Series)) :
  lookup name (map (fun c => (fst c, select m (snd c))) cols) =
  option_map (select m) (lookup name cols).
Proof.
  induction cols as [| [n s] cols IH]; simpl; [reflexivity |].
  destruct (String.eqb n name); [reflexivity | exact IH].
Qed.

Lemma getitem_boolean_index (df : DataFrame) (m : list bool) (name : string) :
  getitem (boolean_index df m) name =
  (s <- getitem df name ;; ok (select m s)).
Proof.
  unfold getitem, boolean_index; simpl. rewrite lookup_map_select.
  destruct (lookup name (data df)); reflexivity.
Qed.



(** A check of [well_formed] that computes. *)
Lemma well_formed_check (df : DataFrame) :
  forallb (fun c => (length (snd c) =? nrows df)%nat) (data df) = true ->
  nodup string_dec (columns df) = columns df ->
  well_formed df.
Proof.
  intros Hlen Hnd. split.
  - rewrite forallb_forall in Hlen. rewrite Forall_forall.
    intros c Hc. apply Nat.eqb_eq. auto.
  - rewrite <- Hnd. apply NoDup_nodup.
Qed.

(** ** The loader keeps frames well formed *)

Lemma columns_assign (name : string) (s : Series) (cols : list (string * Series)) :
  map fst (assign name s cols) =
  if existsb (String.eqb name) (map fst cols) then map fst cols
  else map fst cols ++ [name].
Proof.
  induction cols as [| [n s0] cols IH]; simpl; [reflexivity |].
  rewrite (String.eqb_sym name n).
  destruct (String.eqb n name) eqn:E; simpl; [reflexivity |].
  rewrite IH. destruct (existsb (String.eqb name) (map fst cols)); reflexivity.
Qed.

Lemma Forall_assign (P : string * Series -> Prop) (name : string) (s : Series)
    (cols : list (string * Series)) :
  (forall n, P (n, s)) -> Forall P cols -> Forall P (assign name s cols).
Proof.
  intros Hs. induction 1 as [| [n s0] cols Hc Hcols IH]; simpl.
  - constructor; [apply Hs | constructor].
  - destruct (String.eqb n name); constructor; auto.
Qed.

Lemma setitem_well_formed (df : DataFrame) (name : string) (s : Series) :
  well_formed df -> length s = nrows df -> well_formed (setitem df name s).
Proof.
  intros [Hlen Hnd] Hs. split.
  - simpl. apply Forall_assign; [intros n; exact Hs | exact Hlen].
  - unfold columns, setitem; simpl. rewrite columns_assign.
    destruct (existsb (String.eqb name) (map fst (data df))) eqn:E; [exact Hnd |].
    apply NoDup_app; [exact Hnd | repeat constructor; intros [] | ].
    intros x Hx [Heq | []]. subst x.
    assert (existsb (String.eqb name) (map fst (data df)) = true); [| congruence].
    apply existsb_exists. exists name. split; [exact Hx | apply String.eqb_refl].
Qed.

Lemma zip_with_two_columns {A B C : Type} (f : A -> B -> C) (l1 : list A) (l2 : list B)
    (n : nat) :
  length l1 = n -> length l2 = n -> length (zip_with f l1 l2) = n.
Proof.
  intros H1 H2. unfold zip_with. rewrite length_map, length_combine. lia.
Qed.

Section LoaderWellFormed.

Variable parse_datetime : string -> option Z.
Variable parse_float : string -> option Q.

Lemma convert_dates_well_formed (cols : list string) (df df' : DataFrame) :
  well_formed df ->
  convert_dates parse_datetime cols df = inr df' ->
  well_formed df'.
Proof.
  revert df. induction cols as [| col cols IH]; intros df Hwf H; simpl in H.
  - injection H as <-. exact Hwf.
  - inv_bind H. inv_bind H. apply (IH (setitem df col a0)); [| exact H].
    apply setitem_well_formed; [exact Hwf |].
    rewrite (mapM_inr_length _ _ _ Ha0). exact (getitem_length _ _ _ Hwf Ha).
Qed.

(** A frame loaded from a well-formed frame is well formed. *)
Lemma load_data_try_well_formed (raw df : DataFrame) :
  well_formed raw ->
  load_data_try parse_datetime parse_float (inr raw) = inr df ->
  well_formed df.
Proof.
  intros Hwf H. unfold load_data_try in H. cbn [bind] in H.
  inv_bind H. rename a into d1. pose proof (convert_dates_well_formed _ _ _ Hwf Ha) as W1.
  inv_bind H. rename a into d2.
  assert (W2 : well_formed d2).
  { unfold convert_amount in Ha0. inv_bind Ha0. inv_bind Ha0. injection Ha0 as <-.
    apply setitem_well_formed; [exact W1 |].
    rewrite (mapM_inr_length _ _ _ Ha2), length_map.
    exact (getitem_length _ _ _ W1 Ha1). }
  inv_bind H. rename a into d3.
  assert (W3 : well_formed d3).
  { unfold consolidate_agencies in Ha1. inv_bind Ha1. injection Ha1 as <-.
    apply setitem_well_formed; [exact W2 |].
    rewrite length_map. exact (getitem_length _ _ _ W2 Ha2). }
  inv_bind H. rename a into d4.
  assert (W4 : well_formed d4).
  { unfold add_duration in Ha2.
    destruct (negb (has_column d3 "contract_duration_days")).
    - inv_bind Ha2. inv_bind Ha2. injection Ha2 as <-.
      apply setitem_well_formed; [exact W3 |].
      apply zip_with_two_columns; eapply getitem_length; eassumption.
    - injection Ha2 as <-. exact W3. }
  inv_bind H. rename a into d5. injection H as <-.
  unfold add_size_category in Ha3.
  destruct (negb (has_column d4 "award_size_category")).
  - inv_bind Ha3. injection Ha3 as <-.
    apply setitem_well_formed; [exact W4 |].
    rewrite length_map. exact (getitem_length _ _ _ W4 Ha4).
  - injection Ha3 as <-. exact W4.
Qed.

End LoaderWellFormed.

(** ** Agency names *)

Lemma dict_get_In (m : list (string * string)) (k v : string) :
  dict_get m k = Some v -> In (k, v) m.
Proof.
  induction m as [| [k0 v0] m IH]; simpl; [discriminate |].
  destruct (String.eqb k0 k) eqn:E.
  - apply String.eqb_eq in E. intros [= <-]. subst. auto.
  - auto.
Qed.

Lemma dict_get_None (m : list (string * string)) (k : string) :
  ~ In k (map fst m) -> dict_get m k = None.
Proof.
  induction m as [| [k0 v0] m IH]; simpl; [reflexivity |].
  intros H. destruct (String.eqb k0 k) eqn:E.
  - apply String.eqb_eq in E. tauto.
  - apply IH. tauto.
Qed.

(** Every value of the dict is a key of the dict, bound to itself. *)
Lemma agency_values_fixed (k v : string) :
  In (k, v) agency_mappings -> dict_get agency_mappings v = Some v.
Proof.
  unfold agency_mappings. cbn [In]. intros H.
  repeat (destruct H as [[= <- <-] | H]; [reflexivity |]).
  contradiction.
Qed.

(** C5. Agency canonicalization is a fixed mapping applied to each raw
    agency name by the loader; applying it twice is the same as applying
    it once, for every string: every canonical name (every value of the
    synonym table) maps to itself, and a name that is not a key of the
    table passes through unchanged. *)
Theorem canonicalize_idempotent :
  (forall x : string, canonicalize (canonicalize x) = canonicalize x) /\
  (forall k v : string, In (k, v) agency_mappings -> canonicalize v = v) /\
  (forall x : string, ~ In x (map fst agency_mappings) -> canonicalize x = x) /\
  (forall c : cell, replace_values (replace_values c) = replace_values c) /\
  (forall parse_datetime parse_float csv df,
     load_data_try parse_datetime parse_float csv = inr df ->
     exists raw names,
       csv = inr raw /\
       getitem raw "awarding_agency_name" = inr names /\
       getitem df "awarding_agency_name" = inr (map replace_values names)).
Proof.
  assert (Hfix : forall k v, In (k, v) agency_mappings -> canonicalize v = v).
  { intros k v H. unfold canonicalize. rewrite (agency_values_fixed k v H). reflexivity. }
  assert (Hidem : forall x, canonicalize (canonicalize x) = canonicalize x).
  { intros x. unfold canonicalize at 2 3.
    destruct (dict_get agency_mappings x) as [y |] eqn:E.
    - apply dict_get_In in E. exact (Hfix x y E).
    - unfold canonicalize. rewrite E. reflexivity. }
  repeat split.
  - exact Hidem.
  - exact Hfix.
  - intros x H. unfold canonicalize. rewrite (dict_get_None _ _ H). reflexivity.
  - intros [| s | x | b | t]; simpl; try reflexivity. rewrite Hidem. reflexivity.
  - intros pd pf csv df H.
    destruct (load_data_try_inr pd pf csv df H) as (raw & Hcsv & L).
    destruct (put_agency _ _ _ _ L) as (s & s' & Hs & Hs' & Hdf).
    injection Hs' as <-. eauto.
Qed.

(** The consolidated names of the sample file. *)
Lemma canonicalize_idempotent_witness :
  getitem Examples.loaded_csv "awarding_agency_name" =
  inr [Str "Department of Justice"; Str "Department of Justice"; Str "Dept X"].
Proof.
  destruct canonicalize_idempotent as (_ & _ & _ & _ & H).
  destruct (H Literals.iso_date Literals.decimal (inr Examples.csv) Examples.loaded_csv eq_refl)
    as (raw & names & Hraw & Hnames & Hdf).
  injection Hraw as <-. vm_compute in Hnames. injection Hnames as <-.
  exact Hdf.
Defined.

(** ** Why a load fails *)

Section LoadFailures.

Variable parse_datetime : string -> option Z.
Variable parse_float : string -> option Q.

Lemma unread_file_fails (e : exn) :
  load_data_try parse_datetime parse_float (inl e) = inl e.
Proof. reflexivity. Qed.

Lemma missing_column_fails (raw : DataFrame) (name : string) :
  In name ["action_date"; "contract_start_date"; "contract_end_date";
           "award_amount"; "awarding_agency_name"] ->
  has_column raw name = false ->
  exists e, load_data_try parse_datetime parse_float (inr raw) = inl e.
Proof.
  intros Hin Hno. apply load_data_try_inl_or_inr. intros df H.
  destruct (load_data_try_inr _ _ _ _ H) as (raw' & [= <-] & L).
  assert (Hyes : exists s, getitem raw name = inr s).
  { cbn [In] in Hin.
    destruct Hin as [<- | [<- | [<- | [<- | [<- | []]]]]].
    - destruct (put_dates _ _ _ _ L "action_date") as (s & _ & Hs & _); [simpl; auto | eauto].
    - destruct (put_dates _ _ _ _ L "contract_start_date") as (s & _ & Hs & _);
        [simpl; auto | eauto].
    - destruct (put_dates _ _ _ _ L "contract_end_date") as (s & _ & Hs & _);
        [simpl; auto | eauto].
    - destruct (put_amount _ _ _ _ L) as (s & _ & Hs & _); eauto.
    - destruct (put_agency _ _ _ _ L) as (s & _ & Hs & _); eauto. }
  apply has_column_getitem in Hyes. congruence.
Qed.

Lemma unparseable_date_fails (raw : DataFrame) (name : string) (col : Series) (s : string) :
  In name date_columns ->
  getitem raw name = inr col ->
  In (Str s) col ->
  parse_datetime s = None ->
  exists e, load_data_try parse_datetime parse_float (inr raw) = inl e.
Proof.
  intros Hin Hcol Hs Hparse. apply load_data_try_inl_or_inr. intros df H.
  destruct (load_data_try_inr _ _ _ _ H) as (raw' & [= <-] & L).
  destruct (put_dates _ _ _ _ L name Hin) as (s0 & s' & Hs0 & Hs' & _).
  rewrite Hcol in Hs0. injection Hs0 as <-.
  destruct (mapM_inr_In _ _ _ _ Hs' Hs) as (b & Hb & _).
  simpl in Hb. rewrite Hparse in Hb. discriminate.
Qed.

Lemma non_numeric_amount_fails (raw : DataFrame) (col : Series) (s : string) :
  getitem raw "award_amount" = inr col ->
  In (Str s) col ->
  parse_float (PyStr.remove_class ["$"%char; ","%char] s) = None ->
  exists e, load_data_try parse_datetime parse_float (inr raw) = inl e.
Proof.
  intros Hcol Hs Hparse. apply load_data_try_inl_or_inr. intros df H.
  destruct (load_data_try_inr _ _ _ _ H) as (raw' & [= <-] & L).
  destruct (put_amount _ _ _ _ L) as (s0 & s' & Hs0 & Hs' & _).
  rewrite Hcol in Hs0. injection Hs0 as <-.
  apply (in_map regex_replace) in Hs.
  destruct (mapM_inr_In _ _ _ _ Hs' Hs) as (b & Hb & _).
  simpl in Hb. rewrite Hparse in Hb. discriminate.
Qed.

(** What [astype(float)] makes of one cell of the stripped column. *)
Lemma astype_float_regex_replace (c c' : cell) :
  astype_float parse_float (regex_replace c) = inr c' ->
  match c with
  | NA => c' = NA
  | Str s => exists x, parse_float (PyStr.remove_class ["$"%char; ","%char] s) = Some x
                       /\ c' = Num x
  | Num x => c' = Num x
  | Flag b => c' = Num (if b then 1 else 0)
  | Stamp _ => False
  end.
Proof.
  destruct c as [| s | x | b | t]; simpl; try (intros [= <-]; reflexivity).
  destruct (parse_float _) as [x |]; [intros [= <-]; eauto | discriminate].
Qed.

End LoadFailures.

(** ** The claims about the loader *)

Lemma Qltb_true (a x : Q) : (a < x)%Q -> Qltb a x = true.
Proof.
  intros H. unfold Qltb. destruct (Qle_bool x a) eqn:E; [| reflexivity].
  apply Qle_bool_iff in E. lra.
Qed.

Lemma Qltb_false (a x : Q) : (x <= a)%Q -> Qltb a x = false.
Proof.
  intros H. unfold Qltb. apply Qle_bool_iff in H. rewrite H. reflexivity.
Qed.

(** The label [pd.cut] gives to a positive amount, bin by bin. *)
Lemma cut_right_closed (x : Q) :
  (0 < x)%Q ->
  ((x <= 10000)%Q -> cut bins labels (Num x) = Str "Micro (< $10K)") /\
  ((10000 < x)%Q -> (x <= 100000)%Q -> cut bins labels (Num x) = Str "Small ($10K - $100K)") /\
  ((100000 < x)%Q -> (x <= 1000000)%Q -> cut bins labels (Num x) = Str "Medium ($100K - $1M)") /\
  ((1000000 < x)%Q -> (x <= 10000000)%Q -> cut bins labels (Num x) = Str "Large ($1M - $10M)") /\
  ((10000000 < x)%Q -> cut bins labels (Num x) = Str "Major (> $10M)").
Proof.
  intros H0.
  assert (E0 : Qltb 0 x = true) by (apply Qltb_true; lra).
  unfold cut, searchsorted_left, bins. cbn [filter edge_lt]. rewrite E0.
  repeat split; intros;
    repeat match goal with
    | |- context [Qltb ?b x] =>
        first [ rewrite (Qltb_true b x) by lra | rewrite (Qltb_false b x) by lra ]
    end; reflexivity.
Qed.

(** C1 (amended). When the file has no column [award_size_category], the
    loader derives it from [award_amount] with [pd.cut]; for every
    strictly positive amount the label is the one of the unique bin of
    (0, 10K], (10K, 100K], (100K, 1M], (1M, 10M], (10M, inf) that holds
    the amount: an amount exactly on an edge belongs to the lower bin.
    In particular 9999.99 and 10000 are Micro and 10000000 is Large. *)
Theorem award_size_category_right_closed
    (parse_datetime : string -> option Z) (parse_float : string -> option Q)
    (csv : result DataFrame) (df : DataFrame) :
  load_data_try parse_datetime parse_float csv = inr df ->
  exists raw,
    csv = inr raw /\
    (has_column raw "award_size_category" = false ->
     exists amount,
       getitem df "award_amount" = inr amount /\
       getitem df "award_size_category" = inr (map (cut bins labels) amount)) /\
    (forall x : Q, (0 < x)%Q ->
       ((x <= 10000)%Q -> cut bins labels (Num x) = Str "Micro (< $10K)") /\
       ((10000 < x)%Q -> (x <= 100000)%Q ->
          cut bins labels (Num x) = Str "Small ($10K - $100K)") /\
       ((100000 < x)%Q -> (x <= 1000000)%Q ->
          cut bins labels (Num x) = Str "Medium ($100K - $1M)") /\
       ((1000000 < x)%Q -> (x <= 10000000)%Q ->
          cut bins labels (Num x) = Str "Large ($1M - $10M)") /\
       ((10000000 < x)%Q -> cut bins labels (Num x) = Str "Major (> $10M)")) /\
    cut bins labels (Num (999999 # 100)) = Str "Micro (< $10K)" /\
    cut bins labels (Num 10000) = Str "Micro (< $10K)" /\
    cut bins labels (Num 10000000) = Str "Large ($1M - $10M)".
Proof.
  intros H.
  destruct (load_data_try_inr _ _ _ _ H) as (raw & Hcsv & L).
  exists raw. split; [assumption |]. split; [| split; [exact cut_right_closed |]].
  - intros Habsent.
    destruct (put_amount _ _ _ _ L) as (s & amount & _ & _ & Hamount).
    exists amount. split; [assumption |].
    pose proof (put_size _ _ _ _ L) as Hsize. unfold kept_or_derived in Hsize.
    rewrite Habsent, Hamount in Hsize. exact Hsize.
  - repeat split; reflexivity.
Qed.

(** The categories derived for the amounts 9999.99, 10000, 10000000 and 0. *)
Lemma award_size_category_right_closed_witness :
  getitem Examples.loaded_csv_edges "award_size_category" =
  inr (map (cut bins labels) [Num (999999 # 100); Num 10000; Num 10000000; Num 0]).
Proof.
  destruct (award_size_category_right_closed Literals.iso_date Literals.decimal
              (inr Examples.csv_edges) Examples.loaded_csv_edges eq_refl)
    as (raw & Hraw & Hcol & _).
  injection Hraw as <-.
  destruct (Hcol eq_refl) as (amount & Ha & Hc).
  vm_compute in Ha. injection Ha as <-. exact Hc.
Defined.

(** C1, as stated, fails: loaded from a file without the category
    column, the amount 10000 is labelled Micro (not Small), the amount
    10000000 is labelled Large (not Major), and the amount 0 gets no
    label at all. *)
Lemma edge_amounts_fall_in_the_lower_bucket :
  bind (Examples.load Examples.csv_edges) (fun df => getitem df "award_amount")
  = inr [Num (999999 # 100); Num 10000; Num 10000000; Num 0] /\
  bind (Examples.load Examples.csv_edges) (fun df => getitem df "award_size_category")
  = inr [Str "Micro (< $10K)"; Str "Micro (< $10K)"; Str "Large ($1M - $10M)"; NA].
Proof. split; vm_compute; reflexivity. Qed.

(** C4 (amended). The loader strips every [$] and [,] from the amount
    field and parses the rest as a floating-point number: a loaded
    amount is the parse of the stripped text, and any text whose rest is
    not a number makes the whole load fail.  The sign is not checked. *)
Theorem award_amount_stripped_then_parsed
    (parse_datetime : string -> option Z) (parse_float : string -> option Q)
    (csv : result DataFrame) :
  (forall df, load_data_try parse_datetime parse_float csv = inr df ->
     exists raw col amount,
       csv = inr raw /\
       getitem raw "award_amount" = inr col /\
       getitem df "award_amount" = inr amount /\
       mapM (astype_float parse_float) (map regex_replace col) = inr amount /\
       Forall2 (fun c c' =>
                  match c with
                  | NA => c' = NA
                  | Str s =>
                      exists x,
                        parse_float (PyStr.remove_class ["$"%char; ","%char] s) = Some x
                        /\ c' = Num x
                  | Num x => c' = Num x
                  | Flag b => c' = Num (if b then 1 else 0)
                  | Stamp _ => False
                  end) col amount) /\
  (forall raw col s,
     csv = inr raw ->
     getitem raw "award_amount" = inr col ->
     In (Str s) col ->
     parse_float (PyStr.remove_class ["$"%char; ","%char] s) = None ->
     exists e, load_data_try parse_datetime parse_float csv = inl e).
Proof.
  split.
  - intros df H.
    destruct (load_data_try_inr _ _ _ _ H) as (raw & Hcsv & L).
    destruct (put_amount _ _ _ _ L) as (col & amount & Hcol & Hparse & Hamount).
    exists raw, col, amount. repeat split; try assumption.
    apply mapM_inr_Forall2 in Hparse.
    clear - Hparse. remember (map regex_replace col) as col' eqn:E.
    revert col E. induction Hparse as [| c0 c' l l' Hc _ IH]; intros col E.
    + destruct col; [constructor | discriminate].
    + destruct col as [| c col]; [discriminate |]. injection E as -> ->.
      constructor; [apply astype_float_regex_replace; assumption | apply IH; reflexivity].
  - intros raw col s -> Hcol Hs Hparse.
    eapply non_numeric_amount_fails; eassumption.
Qed.

(** The amounts of the sample file, and a text amount that fails. *)
Lemma award_amount_stripped_then_parsed_witness :
  getitem Examples.loaded_csv "award_amount" = inr [Num (2001 # 2); Num 25000; Num 5] /\
  exists e, Examples.load Examples.csv_text_amount = inl e.
Proof.
  destruct (award_amount_stripped_then_parsed Literals.iso_date Literals.decimal
              (inr Examples.csv)) as (Hload & _).
  destruct (award_amount_stripped_then_parsed Literals.iso_date Literals.decimal
              (inr Examples.csv_text_amount)) as (_ & Hfail).
  split.
  - destruct (Hload Examples.loaded_csv eq_refl)
      as (raw & col & amount & Hraw & Hcol & Hamount & Hparse & _).
    injection Hraw as <-. vm_compute in Hcol. injection Hcol as <-.
    vm_compute in Hparse. injection Hparse as <-. exact Hamount.
  - apply (Hfail Examples.csv_text_amount [Str "$1,2x0"] "$1,2x0" eq_refl eq_refl);
      [left; reflexivity | reflexivity].
Defined.

(** C4, as stated, fails: the text [-$5] loads, and loads as the amount
    -5, which is negative. *)
Lemma negative_amount_is_loaded :
  bind (Examples.load Examples.csv_negative) (fun df => getitem df "award_amount")
  = inr [Num (-5 # 1)] /\ (-5 # 1 < 0)%Q.
Proof. split; [vm_compute; reflexivity | reflexivity]. Qed.

(** C10. The loader computes [contract_duration_days] only when the file
    has no such column and [award_size_category] only when the file has
    no such column; a column that is in the file is in the loaded frame
    with every value unchanged. *)
Theorem derived_columns_only_when_absent
    (parse_datetime : string -> option Z) (parse_float : string -> option Q)
    (csv : result DataFrame) (df : DataFrame) :
  load_data_try parse_datetime parse_float csv = inr df ->
  exists raw,
    csv = inr raw /\
    (forall s, getitem raw "contract_duration_days" = inr s ->
               getitem df "contract_duration_days" = inr s) /\
    (forall s, getitem raw "award_size_category" = inr s ->
               getitem df "award_size_category" = inr s) /\
    (has_column raw "contract_duration_days" = false ->
     exists e s,
       getitem df "contract_end_date" = inr e /\
       getitem df "contract_start_date" = inr s /\
       getitem df "contract_duration_days" = inr (zip_with days_between e s)) /\
    (has_column raw "award_size_category" = false ->
     exists amount,
       getitem df "award_amount" = inr amount /\
       getitem df "award_size_category" = inr (map (cut bins labels) amount)).
Proof.
  intros H.
  destruct (load_data_try_inr _ _ _ _ H) as (raw & Hcsv & L).
  exists raw. split; [assumption |].
  pose proof (put_duration _ _ _ _ L) as Hdur.
  pose proof (put_size _ _ _ _ L) as Hsize.
  unfold kept_or_derived in Hdur, Hsize.
  repeat split.
  - intros s Hs.
    assert (Hyes : has_column raw "contract_duration_days" = true)
      by (apply has_column_getitem; eauto).
    rewrite Hyes, Hs in Hdur. exact Hdur.
  - intros s Hs.
    assert (Hyes : has_column raw "award_size_category" = true)
      by (apply has_column_getitem; eauto).
    rewrite Hyes, Hs in Hsize. exact Hsize.
  - intros Hno. rewrite Hno in Hdur.
    destruct (put_dates _ _ _ _ L "contract_end_date") as (? & e & _ & _ & He);
      [simpl; auto |].
    destruct (put_dates _ _ _ _ L "contract_start_date") as (? & s & _ & _ & Hs);
      [simpl; auto |].
    rewrite He, Hs in Hdur. exists e, s. auto.
  - intros Hno. rewrite Hno in Hsize.
    destruct (put_amount _ _ _ _ L) as (? & amount & _ & _ & Ha).
    rewrite Ha in Hsize. exists amount. auto.
Qed.

(** The two derived columns of a file that already has them, and of a
    file that has neither. *)
Lemma derived_columns_only_when_absent_witness :
  (getitem Examples.loaded_csv_with_derived "contract_duration_days"
   = inr [Num 1; Num 2; Num 3] /\
   getitem Examples.loaded_csv_with_derived "award_size_category"
   = inr [Str "S"; Str "M"; Str "L"]) /\
  (getitem Examples.loaded_csv "contract_duration_days" = inr [Num 365; Num 28; NA] /\
   getitem Examples.loaded_csv "award_size_category"
   = inr [Str "Micro (< $10K)"; Str "Small ($10K - $100K)"; Str "Micro (< $10K)"]).
Proof.
  destruct (derived_columns_only_when_absent Literals.iso_date Literals.decimal
              (inr Examples.csv_with_derived) Examples.loaded_csv_with_derived eq_refl)
    as (raw & Hraw & Hdur & Hsize & _).
  injection Hraw as <-.
  destruct (derived_columns_only_when_absent Literals.iso_date Literals.decimal
              (inr Examples.csv) Examples.loaded_csv eq_refl)
    as (raw & Hraw & _ & _ & Hdur' & Hsize').
  injection Hraw as <-.
  split; split.
  - apply Hdur. reflexivity.
  - apply Hsize. reflexivity.
  - destruct (Hdur' eq_refl) as (e & s & He & Hs & Hd).
    vm_compute in He, Hs. injection He as <-. injection Hs as <-. exact Hd.
  - destruct (Hsize' eq_refl) as (amount & Ha & Hc).
    vm_compute in Ha. injection Ha as <-. exact Hc.
Defined.

(** C9 (amended). When the file cannot be read, when one of the five
    columns the loader reads is missing, when a date does not parse or
    when an amount is not a number after stripping, the load fails as a
    whole and yields no table; the script then shows the loader's
    message with the exception, then the notice that the data could not
    be loaded, and nothing else: no filter, metric, chart, table or
    feed. *)
Theorem failed_load_shows_only_the_errors
    (parse_datetime : string -> option Z) (parse_float : string -> option Q)
    (csv : result DataFrame) (inp : Inputs) :
  (exists e, csv = inl e) \/
  (exists raw name,
     csv = inr raw /\
     In name ["action_date"; "contract_start_date"; "contract_end_date";
              "award_amount"; "awarding_agency_name"] /\
     has_column raw name = false) \/
  (exists raw name col s,
     csv = inr raw /\ In name date_columns /\ getitem raw name = inr col /\
     In (Str s) col /\ parse_datetime s = None) \/
  (exists raw col s,
     csv = inr raw /\ getitem raw "award_amount" = inr col /\ In (Str s) col /\
     parse_float (PyStr.remove_class ["$"%char; ","%char] s) = None) ->
  exists e,
    load_data_try parse_datetime parse_float csv = inl e /\
    load_data parse_datetime parse_float csv = ([StError (ErrorLoadingData e)], inr None) /\
    app parse_datetime parse_float csv inp =
      ([PageConfig; Markup; StError (ErrorLoadingData e); StError UnableToLoadData], inr tt).
Proof.
  intros Hcause.
  assert (Hfail : exists e, load_data_try parse_datetime parse_float csv = inl e).
  { destruct Hcause as [(e & ->) | [(raw & name & -> & Hin & Hno)
      | [(raw & name & col & s & -> & Hin & Hcol & Hs & Hparse)
        | (raw & col & s & -> & Hcol & Hs & Hparse)]]].
    - exists e. apply unread_file_fails.
    - eapply missing_column_fails; eassumption.
    - eapply unparseable_date_fails; eassumption.
    - eapply non_numeric_amount_fails; eassumption. }
  destruct Hfail as (e & He). exists e.
  split; [assumption |].
  unfold app, load_data. rewrite He. split; reflexivity.
Qed.

(** A file whose action date is the text [yesterday]. *)
Lemma failed_load_shows_only_the_errors_witness :
  exists e,
    Examples.load Examples.csv_bad_date = inl e /\
    load_data Literals.iso_date Literals.decimal (inr Examples.csv_bad_date)
    = ([StError (ErrorLoadingData e)], inr None) /\
    Examples.run Examples.csv_bad_date Examples.everything
    = ([PageConfig; Markup; StError (ErrorLoadingData e); StError UnableToLoadData], inr tt).
Proof.
  apply (failed_load_shows_only_the_errors Literals.iso_date Literals.decimal
           (inr Examples.csv_bad_date) Examples.everything).
  right; right; left.
  exists Examples.csv_bad_date, "action_date", [Str "yesterday"], "yesterday".
  repeat split; try reflexivity; simpl; auto.
Defined.

(** C9, as stated, fails twice.  A file without the required column
    [award_id] loads; the script then shows the filters, the metrics and
    two charts before the timeline raises [KeyError].  And a load that
    fails is followed by two error notices, not one. *)
Lemma missing_award_id_loads_and_two_notices :
  has_column Examples.csv_no_award_id "award_id" = false /\
  (exists df, Examples.load Examples.csv_no_award_id = inr df) /\
  snd (Examples.run Examples.csv_no_award_id Examples.everything)
  = inl (KeyError "award_id") /\
  In (Metric "Total Contracts" "1")
     (fst (Examples.run Examples.csv_no_award_id Examples.everything)) /\
  fst (app Literals.iso_date Literals.decimal (inl FileNotFoundError) Examples.everything)
  = [PageConfig; Markup; StError (ErrorLoadingData FileNotFoundError);
     StError UnableToLoadData].
Proof.
  split; [reflexivity |]. split; [eexists; vm_compute; reflexivity |].
  split; [vm_compute; reflexivity |].
  split; [find_in | reflexivity].
Qed.

(** ** The filter engine *)

Lemma apply_choice_le (df : DataFrame) (col selected : string) (m m' : list bool) :
  apply_choice df col selected m = inr m' -> mask_le m' m.
Proof.
  unfold apply_choice. destruct (negb (String.eqb selected "All")).
  - intros H. inv_bind H. injection H as <-. apply mask_le_zip_andb.
  - intros [= <-]. apply mask_le_refl.
Qed.

Lemma apply_themes_le (df : DataFrame) (themes : list string) (m m' : list bool) :
  apply_themes df themes m = inr m' -> mask_le m' m.
Proof.
  unfold apply_themes. destruct themes as [| t themes].
  - intros [= <-]. apply mask_le_refl.
  - intros H. inv_bind H. injection H as <-. apply mask_le_zip_andb.
Qed.



(** ** The monthly timeline *)




(** ** The theme filter *)

Lemma zip_with_length {A B C : Type} (f : A -> B -> C) (l1 : list A) (l2 : list B) :
  length l1 = length l2 -> length (zip_with f l1 l2) = length l1.
Proof.
  intros H. unfold zip_with. rewrite length_map, length_combine. lia.
Qed.

Lemma nth_zip_with (f : bool -> bool -> bool) (l1 l2 : list bool) (i : nat) :
  length l1 = length l2 ->
  (i < length l1)%nat ->
  nth i (zip_with f l1 l2) false = f (nth i l1 false) (nth i l2 false).
Proof.
  unfold zip_with. revert l2 i. induction l1 as [| a l1 IH]; intros [| b l2] i Hlen Hi;
    simpl in *; try lia; try discriminate.
  destruct i as [| i]; [reflexivity |]. apply IH; lia.
Qed.

(** [theme_mask |= df[col]] on a whole boolean column. *)
Lemma or_flags (m flags : list bool) :
  mapM (fun p => or_flag (fst p) (snd p)) (combine m (map Flag flags))
  = inr (zip_with orb m flags).
Proof.
  unfold zip_with. revert flags. induction m as [| b m IH]; intros [| c flags]; simpl;
    try reflexivity.
  rewrite IH. reflexivity.
Qed.

Lemma theme_loop_flags (df : DataFrame) (flags : string -> list bool)
    (themes : list string) (m : list bool) :
  (forall t, In t themes -> getitem df (theme_column t) = inr (map Flag (flags t))) ->
  theme_loop df themes m =
  inr (fold_left (fun acc t => zip_with orb acc (flags t)) themes m).
Proof.
  revert m. induction themes as [| t themes IH]; intros m H; simpl; [reflexivity |].
  rewrite (H t (or_introl eq_refl)). cbn [bind]. rewrite or_flags. cbn [bind].
  apply IH. intros t' Ht'. apply H. right. assumption.
Qed.

Lemma fold_or_length (flags : string -> list bool) (themes : list string)
    (m : list bool) (n : nat) :
  length m = n ->
  (forall t, In t themes -> length (flags t) = n) ->
  length (fold_left (fun acc t => zip_with orb acc (flags t)) themes m) = n.
Proof.
  revert m. induction themes as [| t themes IH]; intros m Hm H; simpl; [assumption |].
  apply IH.
  - rewrite zip_with_length; [assumption |]. rewrite (H t); simpl; auto.
  - intros t' Ht'. apply H. right. assumption.
Qed.

Lemma fold_or_nth (flags : string -> list bool) (themes : list string)
    (m : list bool) (n i : nat) :
  length m = n ->
  (forall t, In t themes -> length (flags t) = n) ->
  (i < n)%nat ->
  nth i (fold_left (fun acc t => zip_with orb acc (flags t)) themes m) false
  = nth i m false || existsb (fun t => nth i (flags t) false) themes.
Proof.
  revert m. induction themes as [| t themes IH]; intros m Hm H Hi; simpl.
  - rewrite orb_false_r. reflexivity.
  - assert (Ht : length (flags t) = n) by (apply H; simpl; auto).
    rewrite IH.
    + rewrite nth_zip_with by lia. rewrite orb_assoc. reflexivity.
    + rewrite zip_with_length; lia.
    + intros t' Ht'. apply H. right. assumption.
    + assumption.
Qed.

Lemma nth_repeat_false (n i : nat) : nth i (repeat false n) false = false.
Proof.
  revert i. induction n as [| n IH]; intros [| i]; simpl; auto.
Qed.

(** C6. A row passes the theme filter if and only if the selection is
    empty or at least one selected theme's flag is true for that row (OR
    across the selected themes); the filter is ANDed with the mask built
    so far.  In particular a row with theme_a true and theme_b false
    passes the selections {A} and {A, B} but not {B}. *)
Theorem theme_filter_is_an_or :
  (forall (df : DataFrame) (themes : list string) (m : list bool)
          (flags : string -> list bool),
     well_formed df ->
     length m = nrows df ->
     (forall t, In t themes ->
        getitem df (theme_column t) = inr (map Flag (flags t))) ->
     exists m',
       apply_themes df themes m = inr m' /\
       length m' = nrows df /\
       forall i, (i < nrows df)%nat ->
         (nth i m' false = true <->
          nth i m false = true /\
          (themes = [] \/
           exists t, In t themes /\ nth i (flags t) false = true))) /\
  apply_themes Examples.one_row_a_not_b ["A"] [true] = inr [true] /\
  apply_themes Examples.one_row_a_not_b ["A"; "B"] [true] = inr [true] /\
  apply_themes Examples.one_row_a_not_b ["B"] [true] = inr [false].
Proof.
  split; [| repeat split; reflexivity].
  intros df themes m flags Hwf Hm Hflags.
  assert (Hlen : forall t, In t themes -> length (flags t) = nrows df).
  { intros t Ht. rewrite <- (getitem_length _ _ _ Hwf (Hflags t Ht)).
    rewrite length_map. reflexivity. }
  destruct themes as [| t0 themes].
  - exists m. split; [reflexivity |]. split; [assumption |].
    intros i Hi. tauto.
  - remember (t0 :: themes) as sel eqn:Esel.
    exists (zip_with andb m
              (fold_left (fun acc t => zip_with orb acc (flags t)) sel
                         (repeat false (nrows df)))).
    assert (Hfold : length (fold_left (fun acc t => zip_with orb acc (flags t)) sel
                                     (repeat false (nrows df))) = nrows df)
      by (apply fold_or_length; [apply repeat_length | assumption]).
    split; [| split].
    + unfold apply_themes, theme_mask. rewrite Esel at 1.
      rewrite (theme_loop_flags df flags sel _ Hflags). reflexivity.
    + rewrite zip_with_length; lia.
    + intros i Hi. rewrite nth_zip_with by lia.
      rewrite (fold_or_nth flags sel _ (nrows df) i);
        [| apply repeat_length | assumption | assumption].
      rewrite nth_repeat_false, orb_false_l, andb_true_iff, existsb_exists.
      split.
      * intros [H1 H2]. split; [assumption | right; assumption].
      * intros [H1 [H2 | H2]]; [subst sel; discriminate | tauto].
Qed.

(** The sample file filtered by the theme Gender: the first award only. *)
Lemma theme_filter_is_an_or_witness :
  exists m',
    apply_themes Examples.loaded_csv ["Gender"] [true; true; true] = inr m' /\
    length m' = 3%nat /\
    forall i, (i < 3)%nat ->
      (nth i m' false = true <->
       nth i [true; true; true] false = true /\
       (["Gender"] = [] \/
        exists t, In t ["Gender"] /\ nth i [true; false; false] false = true)).
Proof.
  destruct theme_filter_is_an_or as (H & _).
  apply (H Examples.loaded_csv ["Gender"] [true; true; true]
           (fun _ => [true; false; false])).
  - apply well_formed_check; vm_compute; reflexivity.
  - reflexivity.
  - intros t [<- | []]. vm_compute. reflexivity.
Defined.

(** ** Theme labels *)














(** ** The ten agencies with the largest totals *)












(** ** An empty filtered subset *)

Lemma mapM_map {A B : Type} (f : A -> result B) (g : A -> B) (l : list A) :
  (forall a, In a l -> f a = inr (g a)) -> mapM f l = inr (map g l).
Proof.
  induction l as [| a l IH]; intros H; simpl; [reflexivity |].
  rewrite (H a (or_introl eq_refl)). cbn [bind].
  rewrite IH; [reflexivity | intros; apply H; right; assumption].
Qed.

Section EmptySubset.

Variables (df : DataFrame) (m : list bool).

Hypothesis df_well_formed : well_formed df.
Hypothesis no_row : select m (seq 0 (nrows df)) = [].

Lemma empty_column (name : string) :
  has_column df name = true -> getitem (boolean_index df m) name = inr [].
Proof.
  intros H. apply has_column_getitem in H. destruct H as (s & Hs).
  rewrite getitem_boolean_index, Hs. cbn [bind]. unfold ok. f_equal.
  apply length_zero_iff_nil.
  rewrite (length_select m s (seq 0 (nrows df))).
  - rewrite no_row. reflexivity.
  - rewrite length_seq. exact (getitem_length _ _ _ df_well_formed Hs).
Qed.

Lemma empty_nrows : nrows (boolean_index df m) = 0%nat.
Proof. simpl. rewrite no_row. reflexivity. Qed.

Lemma empty_getitems (names : list string) :
  (forall name, In name names -> has_column df name = true) ->
  getitems (boolean_index df m) names = inr (map (fun name => (name, [])) names).
Proof.
  intros H. unfold getitems. apply mapM_map.
  intros name Hin. rewrite (empty_column name (H name Hin)). reflexivity.
Qed.

Lemma empty_theme_data :
  theme_data (boolean_index df m) (theme_columns df)
  = inr (map (fun col => (theme_label col, 0)) (theme_columns df)).
Proof.
  unfold theme_data. rewrite empty_getitems.
  - cbn [bind ok]. rewrite map_map. reflexivity.
  - intros name Hin. apply has_column_In.
    unfold theme_columns in Hin. apply filter_In in Hin. tauto.
Qed.

Hypothesis required_columns :
  forall name, In name display_cols -> has_column df name = true.

Lemma empty_top_10_agencies : top_10_agencies (boolean_index df m) = inr [].
Proof.
  unfold top_10_agencies.
  rewrite !empty_column by (apply required_columns; simpl; tauto).
  reflexivity.
Qed.

Lemma empty_timeline_data : timeline_data (boolean_index df m) = inr [].
Proof.
  unfold timeline_data.
  rewrite !empty_column by (apply required_columns; simpl; tauto).
  reflexivity.
Qed.

Lemma empty_detailed_table :
  detailed_table (boolean_index df m)
  = inr (map (fun name => (name, [])) display_cols).
Proof.
  unfold detailed_table.
  rewrite empty_getitems by exact required_columns.
  rewrite empty_column by (apply required_columns; simpl; tauto).
  reflexivity.
Qed.

End EmptySubset.

(** C8 (amended). If the filtered subset is empty, every aggregate still
    produces a result without failing: the metrics are 0 contracts,
    $0.00 and 0 recipients, the top-10-agency and monthly-timeline
    series are empty, and the theme distribution has one entry of count
    zero for every theme column of the table. *)
Theorem empty_subset_gives_zero_views
    (df : DataFrame) (m : list bool) (drawn : list nat) :
  well_formed df ->
  (forall name, In name display_cols -> has_column df name = true) ->
  select m (seq 0 (nrows df)) = [] ->
  theme_data (boolean_index df m) (theme_columns df)
  = inr (map (fun col => (theme_label col, 0)) (theme_columns df)) /\
  top_10_agencies (boolean_index df m) = inr [] /\
  timeline_data (boolean_index df m) = inr [] /\
  views (boolean_index df m) (theme_columns df) drawn =
  ([ Title "Federal DEI Contracts Dashboard Jan. 2023 to Feb. 2025";
     Markup; Markup;
     Metric "Total Contracts" "0";
     Metric "Total Award Amount" "$0.00";
     Metric "Unique Recipients" "0";
     Markup;
     Subheader "DEI Themes Distribution";
     BarChart "Number of Contracts by DEI Theme"
              (map (fun col => (theme_label col, 0)) (theme_columns df));
     Markup;
     Subheader "Award Amount Distribution by Top 10 Agencies";
     BarChart "Total Award Amount by Top 10 Agencies" [];
     Markup;
     Subheader "Timeline of Awards";
     LineChart "Monthly Award Amounts" [];
     Markup; Markup;
     Subheader "Detailed Contract Data";
     Table (map (fun name => (name, [])) display_cols);
     Markup;
     Subheader "Featured Awards";
     Markup ],
   inr tt).
Proof.
  intros Hwf Hcols Hnone.
  pose proof (empty_theme_data df m Hwf Hnone) as Hthemes.
  pose proof (empty_top_10_agencies df m Hwf Hnone Hcols) as Htop.
  pose proof (empty_timeline_data df m Hwf Hnone Hcols) as Htimeline.
  repeat split; try assumption.
  unfold views, random_awards.
  rewrite (empty_nrows df m Hnone).
  rewrite !(empty_column df m Hwf Hnone) by (apply Hcols; simpl; tauto).
  rewrite Hthemes, Htop, Htimeline, (empty_detailed_table df m Hwf Hnone Hcols).
  generalize (map (fun col => (theme_label col, 0)) (theme_columns df)).
  intros themes. reflexivity.
Qed.

(** The sample file and a date range that leaves no row. *)
Lemma empty_subset_gives_zero_views_witness :
  top_10_agencies (Examples.filtered Examples.csv Examples.nothing) = inr [] /\
  timeline_data (Examples.filtered Examples.csv Examples.nothing) = inr [] /\
  theme_data (Examples.filtered Examples.csv Examples.nothing)
             ["theme_gender"; "theme_race_equity"]
  = inr [("Gender", 0); ("Race Equity", 0)].
Proof.
  destruct (empty_subset_gives_zero_views Examples.loaded_csv
              [false; false; false] [])
    as (Hthemes & Htop & Htimeline & _).
  - apply well_formed_check; vm_compute; reflexivity.
  - intros name Hin. vm_compute in Hin.
    repeat (destruct Hin as [<- | Hin]; [vm_compute; reflexivity |]). contradiction.
  - reflexivity.
  - repeat split; assumption.
Defined.

(** C8, as stated, fails: with no row selected the theme distribution of
    the sample file is not empty; it has the two themes with count 0. *)
Lemma empty_subset_keeps_the_theme_bars :
  nrows (Examples.filtered Examples.csv Examples.nothing) = 0%nat /\
  In (BarChart "Number of Contracts by DEI Theme" [("Gender", 0); ("Race Equity", 0)])
     (fst (Examples.run Examples.csv Examples.nothing)) /\
  snd (Examples.run Examples.csv Examples.nothing) = inr tt.
Proof.
  split; [vm_compute; reflexivity |].
  split; [find_in | vm_compute; reflexivity].
Qed.

(* ------------------------------------------------------------------ *)
(** * Further properties of the script *)

(** ** The filter engine *)

Lemma apply_choice_nth (df : DataFrame) (col selected : string) (a : Series)
    (m : list bool) :
  getitem df col = inr a ->
  length a = length m ->
  exists m',
    apply_choice df col selected m = inr m' /\
    length m' = length m /\
    forall i, (i < length m)%nat ->
      nth i m' false =
      nth i m false
      && (String.eqb selected "All" || py_eq (nth i a NA) (Str selected)).
Proof.
  intros Ha Hlen. unfold apply_choice.
  destruct (String.eqb selected "All"); cbn [negb orb].
  - exists m. split; [reflexivity |]. split; [reflexivity |].
    intros i _. rewrite andb_true_r. reflexivity.
  - rewrite Ha. cbn [bind ok]. eexists. split; [reflexivity |].
    split; [apply zip_with_length; rewrite length_map; congruence |].
    intros i Hi. rewrite nth_zip_with; [| rewrite length_map; congruence | assumption].
    f_equal.
    change false with ((fun c => py_eq c (Str selected)) NA) at 1.
    apply map_nth.
Qed.

Lemma apply_themes_nth (df : DataFrame) (themes : list string) (m : list bool)
    (flags : string -> list bool) :
  length m = nrows df ->
  (forall t, In t themes ->
     getitem df (theme_column t) = inr (map Flag (flags t)) /\
     length (flags t) = nrows df) ->
  exists m',
    apply_themes df themes m = inr m' /\
    length m' = nrows df /\
    forall i, (i < nrows df)%nat ->
      nth i m' false =
      nth i m false
      && match themes with
         | [] => true
         | _ => existsb (fun t => nth i (flags t) false) themes
         end.
Proof.
  intros Hm Hflags. destruct themes as [| t0 themes].
  - exists m. split; [reflexivity |]. split; [assumption |].
    intros i _. rewrite andb_true_r. reflexivity.
  - remember (t0 :: themes) as sel eqn:Esel.
    assert (Hfold : length (fold_left (fun acc t => zip_with orb acc (flags t)) sel
                                     (repeat false (nrows df))) = nrows df).
    { apply fold_or_length; [apply repeat_length |]. intros t Ht. apply Hflags, Ht. }
    eexists. split; [| split].
    + unfold apply_themes, theme_mask. rewrite Esel at 1.
      rewrite (theme_loop_flags df flags sel); [reflexivity |].
      intros t Ht. apply Hflags, Ht.
    + rewrite zip_with_length; lia.
    + intros i Hi. rewrite nth_zip_with by lia.
      rewrite (fold_or_nth flags sel _ (nrows df) i);
        [| apply repeat_length | intros t Ht; apply Hflags, Ht | assumption].
      rewrite nth_repeat_false, orb_false_l. subst sel. reflexivity.
Qed.

(** X1. The row mask is the AND of the four predicates, row by row: the
    action date lies in the selected range (both ends included), the
    agency equals the selected one unless the selection is All, the size
    category equals the selected one unless the selection is All, and,
    unless no theme is selected, at least one selected theme is set. *)
Theorem mask_is_the_and_of_the_four_filters
    (df : DataFrame) (inp : Inputs) (action agency size : Series)
    (flags : string -> list bool) :
  well_formed df ->
  getitem df "action_date" = inr action ->
  getitem df "awarding_agency_name" = inr agency ->
  getitem df "award_size_category" = inr size ->
  (forall t, In t (selected_themes inp) ->
     getitem df (theme_column t) = inr (map Flag (flags t))) ->
  exists m,
    mask df inp = inr m /\
    length m = nrows df /\
    forall i, (i < nrows df)%nat ->
      nth i m false =
      date_in_range (fst (date_range inp)) (snd (date_range inp)) (nth i action NA)
      && (String.eqb (selected_agency inp) "All"
          || py_eq (nth i agency NA) (Str (selected_agency inp)))
      && (String.eqb (selected_size inp) "All"
          || py_eq (nth i size NA) (Str (selected_size inp)))
      && match selected_themes inp with
         | [] => true
         | _ => existsb (fun t => nth i (flags t) false) (selected_themes inp)
         end.
Proof.
  intros Hwf Haction Hagency Hsize Hflags.
  pose proof (getitem_length _ _ _ Hwf Haction) as La.
  pose proof (getitem_length _ _ _ Hwf Hagency) as Lg.
  pose proof (getitem_length _ _ _ Hwf Hsize) as Ls.
  set (m0 := map (date_in_range (fst (date_range inp)) (snd (date_range inp))) action).
  assert (L0 : length m0 = nrows df) by (unfold m0; rewrite length_map; exact La).
  destruct (apply_choice_nth df "awarding_agency_name" (selected_agency inp) agency m0
              Hagency) as (m1 & E1 & L1 & N1); [congruence |].
  destruct (apply_choice_nth df "award_size_category" (selected_size inp) size m1
              Hsize) as (m2 & E2 & L2 & N2); [congruence |].
  destruct (apply_themes_nth df (selected_themes inp) m2 flags) as (m3 & E3 & L3 & N3).
  - congruence.
  - intros t Ht. split; [apply Hflags, Ht |].
    rewrite <- (getitem_length _ _ _ Hwf (Hflags t Ht)), length_map. reflexivity.
  - exists m3. split; [| split; [assumption |]].
    + unfold mask. rewrite Haction. cbn [bind]. fold m0.
      rewrite E1. cbn [bind]. rewrite E2. cbn [bind]. exact E3.
    + intros i Hi. rewrite (N3 i Hi), (N2 i), (N1 i) by lia.
      do 3 f_equal. unfold m0.
      change false with (date_in_range (fst (date_range inp)) (snd (date_range inp)) NA).
      apply map_nth.
Qed.

(** The sample file, the agency Department of Justice and the theme
    Gender: of the three awards only the first one passes. *)
Lemma mask_is_the_and_of_the_four_filters_witness :
  exists m,
    mask Examples.loaded_csv
         {| date_range := (0, 100000)%Z;
            selected_agency := "Department of Justice";
            selected_size := "All";
            selected_themes := ["Gender"];
            sample := [] |} = inr m /\
    length m = 3%nat.
Proof.
  destruct (mask_is_the_and_of_the_four_filters Examples.loaded_csv
              {| date_range := (0, 100000)%Z;
                 selected_agency := "Department of Justice";
                 selected_size := "All";
                 selected_themes := ["Gender"];
                 sample := [] |}
              [Stamp 1673740800000000000; Stamp 1675209600000000000;
               Stamp 1674172800000000000]
              [Str "Department of Justice"; Str "Department of Justice"; Str "Dept X"]
              [Str "Micro (< $10K)"; Str "Small ($10K - $100K)"; Str "Micro (< $10K)"]
              (fun _ => [true; false; false]))
    as (m & Hm & Hlen & _).
  - apply well_formed_check; vm_compute; reflexivity.
  - vm_compute; reflexivity.
  - vm_compute; reflexivity.
  - vm_compute; reflexivity.
  - intros t [<- | []]. vm_compute. reflexivity.
  - exists m. split; assumption.
Defined.

Lemma boolean_index_all (df : DataFrame) (keys : Series) :
  well_formed df ->
  length keys = nrows df ->
  boolean_index df (map (fun _ => true) keys) = df.
Proof.
  intros [Hlen _] Hk. destruct df as [n d]. unfold boolean_index. simpl in *.
  f_equal.
  - rewrite select_all_true; [apply length_seq | rewrite length_seq; exact Hk].
  - induction Hlen as [| [name s] d Hs _ IH]; simpl; [reflexivity |].
    simpl in Hs. rewrite select_all_true by congruence. rewrite IH. reflexivity.
Qed.

(** X2. With the agency All, the size All, no theme selected and a date
    range that holds every action date, the filter returns the whole
    table: the same rows in the same order, every column unchanged. *)
Theorem unrestricted_filter_returns_the_table
    (df : DataFrame) (inp : Inputs) (action : Series) :
  well_formed df ->
  getitem df "action_date" = inr action ->
  selected_agency inp = "All" ->
  selected_size inp = "All" ->
  selected_themes inp = [] ->
  Forall (fun c => date_in_range (fst (date_range inp)) (snd (date_range inp)) c = true)
         action ->
  filtered_df df inp = inr df.
Proof.
  intros Hwf Haction Hagency Hsize Hthemes Hall.
  unfold filtered_df, mask, apply_choice, apply_themes.
  rewrite Haction, Hagency, Hsize, Hthemes. cbn [bind ok String.eqb negb].
  rewrite (map_ext_in _ (fun _ => true)).
  - simpl. rewrite boolean_index_all;
      [reflexivity | assumption | exact (getitem_length _ _ _ Hwf Haction)].
  - rewrite Forall_forall in Hall. exact Hall.
Qed.

(** The sample file with every date in the range. *)
Lemma unrestricted_filter_returns_the_table_witness :
  filtered_df Examples.loaded_csv Examples.everything = inr Examples.loaded_csv.
Proof.
  apply (unrestricted_filter_returns_the_table Examples.loaded_csv Examples.everything
           [Stamp 1673740800000000000; Stamp 1675209600000000000;
            Stamp 1674172800000000000]).
  - apply well_formed_check; vm_compute; reflexivity.
  - vm_compute; reflexivity.
  - reflexivity.
  - reflexivity.
  - reflexivity.
  - repeat constructor.
Defined.




(** ** The loader *)

Lemma columns_setitem (df : DataFrame) (name : string) (s : Series) :
  columns (setitem df name s) =
  if has_column df name then columns df else columns df ++ [name].
Proof. unfold columns, setitem, has_column; simpl. apply columns_assign. Qed.

Lemma columns_setitem_present (df : DataFrame) (name : string) (s s' : Series) :
  getitem df name = inr s' -> columns (setitem df name s) = columns df.
Proof.
  intros H. rewrite columns_setitem.
  assert (Hyes : has_column df name = true) by (apply has_column_getitem; eauto).
  rewrite Hyes. reflexivity.
Qed.

Section LoaderColumns.

Variable parse_datetime : string -> option Z.
Variable parse_float : string -> option Q.

Lemma convert_dates_columns (cols : list string) (df df' : DataFrame) :
  convert_dates parse_datetime cols df = inr df' -> columns df' = columns df.
Proof.
  revert df. induction cols as [| col cols IH]; intros df H; simpl in H.
  - injection H as <-. reflexivity.
  - inv_bind H. inv_bind H. rewrite (IH _ H).
    eapply columns_setitem_present. eassumption.
Qed.

(** X4. The loader keeps the rows and the column order of the file: it
    appends [contract_duration_days] and then [award_size_category] when
    the file lacks them and adds nothing else; every column other than
    the seven it reads or writes (the identifier, the recipient, the
    description, every theme column) comes out unchanged, and so the
    theme columns of the loaded table are those of the file, in order. *)
Theorem load_data_keeps_the_other_columns
    (csv : result DataFrame) (df : DataFrame) :
  load_data_try parse_datetime parse_float csv = inr df ->
  exists raw,
    csv = inr raw /\
    nrows df = nrows raw /\
    columns df =
      columns raw
      ++ (if has_column raw "contract_duration_days" then []
          else ["contract_duration_days"])
      ++ (if has_column raw "award_size_category" then []
          else ["award_size_category"]) /\
    (forall name, ~ In name loader_columns -> getitem df name = getitem raw name) /\
    theme_columns df = theme_columns raw.
Proof.
  intros H.
  destruct (load_data_try_inr _ _ _ _ H) as (raw & -> & L).
  exists raw. split; [reflexivity |]. split; [exact (same_index _ _ _ _ L) |].
  assert (Hcols : columns df =
            columns raw
            ++ (if has_column raw "contract_duration_days" then []
                else ["contract_duration_days"])
            ++ (if has_column raw "award_size_category" then []
                else ["award_size_category"])).
  { clear L. unfold load_data_try in H. cbn [bind] in H.
    inv_bind H. rename a into d1. pose proof (convert_dates_columns _ _ _ Ha) as C1.
    inv_bind H. rename a into d2.
    assert (C2 : columns d2 = columns raw).
    { unfold convert_amount in Ha0. inv_bind Ha0. inv_bind Ha0. injection Ha0 as <-.
      rewrite (columns_setitem_present _ _ _ _ Ha1). exact C1. }
    inv_bind H. rename a into d3.
    assert (C3 : columns d3 = columns raw).
    { unfold consolidate_agencies in Ha1. inv_bind Ha1. injection Ha1 as <-.
      rewrite (columns_setitem_present _ _ _ _ Ha2). exact C2. }
    assert (H3 : forall name, has_column d3 name = has_column raw name)
      by (intros name; unfold has_column; rewrite C3; reflexivity).
    inv_bind H. rename a into d4.
    assert (C4 : columns d4 =
              columns raw ++ (if has_column raw "contract_duration_days" then []
                              else ["contract_duration_days"])).
    { unfold add_duration in Ha2. rewrite H3 in Ha2.
      destruct (has_column raw "contract_duration_days") eqn:E; cbn [negb] in Ha2.
      - injection Ha2 as <-. rewrite app_nil_r. exact C3.
      - inv_bind Ha2. inv_bind Ha2. injection Ha2 as <-.
        rewrite columns_setitem, H3, E, C3. reflexivity. }
    inv_bind H. rename a into d5. injection H as <-.
    assert (H4 : has_column d4 "award_size_category"
                 = has_column raw "award_size_category").
    { unfold has_column at 1. rewrite C4, existsb_app.
      destruct (has_column raw "contract_duration_days"); simpl;
        rewrite ?orb_false_r; reflexivity. }
    unfold add_size_category in Ha3. rewrite H4 in Ha3.
    destruct (has_column raw "award_size_category") eqn:E; cbn [negb] in Ha3.
    - injection Ha3 as <-. rewrite app_nil_r. exact C4.
    - inv_bind Ha3. injection Ha3 as <-.
      rewrite columns_setitem, H4, C4, <- app_assoc. reflexivity. }
  split; [exact Hcols |]. split.
  - intros name Hn. apply (other_columns _ _ _ _ L).
    apply not_true_is_false. intros Hex. apply Hn.
    apply existsb_exists in Hex. destruct Hex as (x & Hx & E).
    apply String.eqb_eq in E. subst x. exact Hx.
  - unfold theme_columns. rewrite Hcols, !filter_app.
    destruct (has_column raw "contract_duration_days");
      destruct (has_column raw "award_size_category");
      simpl; rewrite ?app_nil_r; reflexivity.
Qed.

End LoaderColumns.

(** The sample file: two columns appended, two theme columns kept. *)
Lemma load_data_keeps_the_other_columns_witness :
  columns Examples.loaded_csv =
  columns Examples.csv ++ ["contract_duration_days"] ++ ["award_size_category"] /\
  theme_columns Examples.loaded_csv = ["theme_gender"; "theme_race_equity"].
Proof.
  destruct (load_data_keeps_the_other_columns Literals.iso_date Literals.decimal
              (inr Examples.csv) Examples.loaded_csv eq_refl)
    as (raw & Hraw & _ & Hcols & _ & Hthemes).
  injection Hraw as <-. split; [exact Hcols | exact Hthemes].
Defined.

Section LoaderOutcome.

Variable parse_datetime : string -> option Z.
Variable parse_float : string -> option Q.


Lemma to_datetime_value (c c' : cell) :
  to_datetime parse_datetime c = inr c' -> c' = NA \/ exists t, c' = Stamp t.
Proof.
  destruct c as [| s | x | b | t]; simpl; try (intros [= <-]; eauto); try discriminate.
  destruct (parse_datetime s); [intros [= <-]; eauto | discriminate].
Qed.

Lemma astype_float_value (c c' : cell) :
  astype_float parse_float c = inr c' -> c' = NA \/ exists x, c' = Num x.
Proof.
  destruct c as [| s | x | b | t]; simpl; try (intros [= <-]; eauto); try discriminate.
  destruct (parse_float s); [intros [= <-]; eauto | discriminate].
Qed.

Lemma cut_value (c : cell) :
  cut bins labels c = NA \/ exists l, In l labels /\ cut bins labels c = Str l.
Proof.
  destruct c as [| s | x | b | t]; try (left; reflexivity).
  unfold cut. destruct (_ || _); [left; reflexivity |].
  destruct (nth_error labels (searchsorted_left bins x - 1)) as [l |] eqn:E;
    [| left; reflexivity].
  right. exists l. split; [exact (nth_error_In _ _ E) | reflexivity].
Qed.

Lemma days_between_value (e s : cell) :
  days_between e s = NA \/ exists d : Z, days_between e s = Num (inject_Z d).
Proof.
  destruct e, s; simpl; eauto.
Qed.

Lemma mapM_inr_Forall {A B : Type} (f : A -> result B) (P : B -> Prop)
    (l : list A) (l' : list B) :
  (forall a b, f a = inr b -> P b) -> mapM f l = inr l' -> Forall P l'.
Proof.
  intros Hf H. apply mapM_inr_Forall2 in H.
  induction H; constructor; eauto.
Qed.

(** X6. In a loaded table every cell of the three date columns is a
    timestamp or missing and every amount is a number or missing; a
    category column the loader derives holds one of the five labels or a
    missing value, and a duration column it derives holds a whole number
    of days or a missing value. *)
Theorem load_data_types_its_columns (csv : result DataFrame) (df : DataFrame) :
  load_data_try parse_datetime parse_float csv = inr df ->
  exists raw,
    csv = inr raw /\
    (forall name, In name date_columns ->
       exists s, getitem df name = inr s /\
                 Forall (fun c => c = NA \/ exists t, c = Stamp t) s) /\
    (exists s, getitem df "award_amount" = inr s /\
               Forall (fun c => c = NA \/ exists x, c = Num x) s) /\
    (has_column raw "award_size_category" = false ->
     exists s, getitem df "award_size_category" = inr s /\
               Forall (fun c => c = NA \/ exists l, In l labels /\ c = Str l) s) /\
    (has_column raw "contract_duration_days" = false ->
     exists s, getitem df "contract_duration_days" = inr s /\
               Forall (fun c => c = NA \/ exists d : Z, c = Num (inject_Z d)) s).
Proof.
  intros H.
  destruct (load_data_try_inr _ _ _ _ H) as (raw & -> & L).
  exists raw. split; [reflexivity |].
  destruct (put_amount _ _ _ _ L) as (m0 & m & _ & Pm & Hm).
  split; [| split; [| split]].
  - intros name Hin.
    destruct (put_dates _ _ _ _ L name Hin) as (s & s' & _ & Hs' & Hdf).
    exists s'. split; [exact Hdf |].
    eapply mapM_inr_Forall; [| exact Hs']. apply to_datetime_value.
  - exists m. split; [exact Hm |].
    eapply mapM_inr_Forall; [| exact Pm]. apply astype_float_value.
  - intros Hno. pose proof (put_size _ _ _ _ L) as Hsize.
    unfold kept_or_derived in Hsize. rewrite Hno, Hm in Hsize.
    eexists. split; [exact Hsize |].
    apply Forall_map, Forall_forall. intros c _.
    destruct (cut_value c) as [-> | (l & Hl & ->)]; eauto.
  - intros Hno. pose proof (put_duration _ _ _ _ L) as Hdur.
    unfold kept_or_derived in Hdur. rewrite Hno in Hdur.
    destruct (put_dates _ _ _ _ L "contract_end_date") as (? & e & _ & _ & He);
      [simpl; auto |].
    destruct (put_dates _ _ _ _ L "contract_start_date") as (? & s & _ & _ & Hs);
      [simpl; auto |].
    rewrite He, Hs in Hdur. eexists. split; [exact Hdur |].
    unfold zip_with. apply Forall_map, Forall_forall. intros p _.
    destruct (days_between_value (fst p) (snd p)) as [-> | (d & ->)]; eauto.
Qed.

End LoaderOutcome.

(** The sample file loads, and its amounts are numbers. *)
Lemma load_data_types_its_columns_witness :
  exists s, getitem Examples.loaded_csv "award_amount" = inr s /\
            Forall (fun c => c = NA \/ exists x, c = Num x) s.
Proof.
  destruct (load_data_types_its_columns Literals.iso_date Literals.decimal
              (inr Examples.csv) Examples.loaded_csv eq_refl)
    as (raw & _ & _ & Hamount & _).
  exact Hamount.
Defined.

Lemma nth_zip_with_cells {A B C : Type} (f : A -> B -> C) (l1 : list A) (l2 : list B)
    (d1 : A) (d2 : B) (d : C) (i : nat) :
  length l1 = length l2 ->
  (i < length l1)%nat ->
  nth i (zip_with f l1 l2) d = f (nth i l1 d1) (nth i l2 d2).
Proof.
  unfold zip_with. revert l2 i. induction l1 as [| a l1 IH]; intros [| b l2] i Hlen Hi;
    simpl in *; try lia; try discriminate.
  destruct i as [| i]; [reflexivity |]. apply IH; lia.
Qed.

Lemma whole_days_negative (e s : Z) :
  ((e - s) / ns_per_day < 0 <-> e < s)%Z.
Proof.
  unfold ns_per_day. split; intros H.
  - destruct (Z.lt_ge_cases e s) as [Hlt | Hge]; [exact Hlt |].
    assert (0 <= (e - s) / 86400000000000)%Z by (apply Z.div_pos; lia). lia.
  - apply Z.div_lt_upper_bound; lia.
Qed.

(** X7. When the file has no duration column, the duration the loader
    derives for a row is the whole number of days from the start to the
    end of the contract, rounded down; nothing guards the order of the
    two dates, so the duration is negative exactly when the contract
    ends before it starts; it is missing when either date is missing. *)
Theorem contract_duration_of_each_row
    (parse_datetime : string -> option Z) (parse_float : string -> option Q)
    (raw df : DataFrame) :
  well_formed raw ->
  has_column raw "contract_duration_days" = false ->
  load_data_try parse_datetime parse_float (inr raw) = inr df ->
  exists ends starts duration,
    getitem df "contract_end_date" = inr ends /\
    getitem df "contract_start_date" = inr starts /\
    getitem df "contract_duration_days" = inr duration /\
    forall i, (i < nrows df)%nat ->
      match nth i ends NA, nth i starts NA with
      | Stamp e, Stamp s =>
          nth i duration NA = Num (inject_Z ((e - s) / ns_per_day)) /\
          ((e - s) / ns_per_day < 0 <-> e < s)%Z
      | _, _ => nth i duration NA = NA
      end.
Proof.
  intros Hwf Hno H.
  pose proof (load_data_try_well_formed _ _ _ _ Hwf H) as Hwf'.
  destruct (load_data_try_inr _ _ _ _ H) as (raw' & [= <-] & L).
  pose proof (put_duration _ _ _ _ L) as Hdur.
  unfold kept_or_derived in Hdur. rewrite Hno in Hdur.
  destruct (put_dates _ _ _ _ L "contract_end_date") as (? & e & _ & _ & He);
    [simpl; auto |].
  destruct (put_dates _ _ _ _ L "contract_start_date") as (? & s & _ & _ & Hs);
    [simpl; auto |].
  rewrite He, Hs in Hdur. cbn [bind ok] in Hdur.
  exists e, s, (zip_with days_between e s). repeat split; try assumption.
  intros i Hi.
  pose proof (getitem_length _ _ _ Hwf' He) as Le.
  pose proof (getitem_length _ _ _ Hwf' Hs) as Ls.
  rewrite (nth_zip_with_cells days_between e s NA NA NA) by lia.
  destruct (nth i e NA) as [| ? | ? | ? | te]; try reflexivity.
  destruct (nth i s NA) as [| ? | ? | ? | ts]; try reflexivity.
  split; [reflexivity | apply whole_days_negative].
Qed.

(** The sample file: 365 days, 28 days, and a missing start date. *)
Lemma contract_duration_of_each_row_witness :
  exists ends starts duration,
    getitem Examples.loaded_csv "contract_end_date" = inr ends /\
    getitem Examples.loaded_csv "contract_start_date" = inr starts /\
    getitem Examples.loaded_csv "contract_duration_days" = inr duration /\
    forall i, (i < nrows Examples.loaded_csv)%nat ->
      match nth i ends NA, nth i starts NA with
      | Stamp e, Stamp s =>
          nth i duration NA = Num (inject_Z ((e - s) / ns_per_day)) /\
          ((e - s) / ns_per_day < 0 <-> e < s)%Z
      | _, _ => nth i duration NA = NA
      end.
Proof.
  apply (contract_duration_of_each_row Literals.iso_date Literals.decimal
           Examples.csv Examples.loaded_csv).
  - apply well_formed_check; vm_compute; reflexivity.
  - reflexivity.
  - reflexivity.
Defined.

(** Each key of the dict is bound to the value written next to it. *)
Lemma agency_keys_bound (k v : string) :
  In (k, v) agency_mappings -> dict_get agency_mappings k = Some v.
Proof.
  unfold agency_mappings. cbn [In]. intros H.
  repeat (destruct H as [[= <- <-] | H]; [reflexivity |]).
  contradiction.
Qed.

(** X8. After a load no row carries an abbreviated agency spelling: for
    every entry of the synonym table whose key differs from its value
    (the seven names with an abbreviation in brackets), the key occurs
    nowhere in the agency column, and every agency cell is left as it is
    by a further replacement. *)
Theorem loaded_agencies_are_canonical
    (parse_datetime : string -> option Z) (parse_float : string -> option Q)
    (csv : result DataFrame) (df : DataFrame) :
  load_data_try parse_datetime parse_float csv = inr df ->
  exists agency,
    getitem df "awarding_agency_name" = inr agency /\
    Forall (fun c => replace_values c = c) agency /\
    forall k v, In (k, v) agency_mappings -> k <> v -> ~ In (Str k) agency.
Proof.
  intros H.
  destruct (load_data_try_inr _ _ _ _ H) as (raw & _ & L).
  destruct (put_agency _ _ _ _ L) as (g & g' & _ & [= <-] & Hdf).
  assert (Hfixed : forall x, canonicalize (canonicalize x) = canonicalize x).
  { intros x. unfold canonicalize at 2 3.
    destruct (dict_get agency_mappings x) as [y |] eqn:E.
    - unfold canonicalize.
      rewrite (agency_values_fixed x y (dict_get_In _ _ _ E)). reflexivity.
    - unfold canonicalize. rewrite E. reflexivity. }
  assert (Hall : Forall (fun c => replace_values c = c) (map replace_values g)).
  { apply Forall_map, Forall_forall. intros [| s | x | b | t] _; simpl; try reflexivity.
    rewrite Hfixed. reflexivity. }
  exists (map replace_values g). split; [exact Hdf |]. split; [exact Hall |].
  intros k v Hkv Hne Hin.
  rewrite Forall_forall in Hall. specialize (Hall _ Hin). simpl in Hall.
  injection Hall as Hk. unfold canonicalize in Hk.
  rewrite (agency_keys_bound k v Hkv) in Hk. congruence.
Qed.

(** The sample file names the Department of Justice in two spellings. *)
Lemma loaded_agencies_are_canonical_witness :
  exists agency,
    getitem Examples.loaded_csv "awarding_agency_name" = inr agency /\
    ~ In (Str "Department of Justice (DOJ)") agency.
Proof.
  destruct (loaded_agencies_are_canonical Literals.iso_date Literals.decimal
              (inr Examples.csv) Examples.loaded_csv eq_refl)
    as (agency & Hagency & _ & Hnone).
  exists agency. split; [exact Hagency |].
  apply (Hnone "Department of Justice (DOJ)" "Department of Justice").
  - unfold agency_mappings. cbn [In]. do 6 right. left. reflexivity.
  - discriminate.
Defined.

(** ** The sidebar: option lists *)

Lemma py_lt_inr (a b : cell) (v : bool) :
  py_lt a b = inr v -> kind_of a = kind_of b.
Proof. destruct a, b; simpl; try discriminate; reflexivity. Qed.

Lemma py_lt_inl (a b : cell) (e : exn) :
  py_lt a b = inl e -> e = TypeError /\ kind_of a <> kind_of b.
Proof.
  destruct a as [| ? | ? | [] | ?], b as [| ? | ? | [] | ?]; simpl;
    intros H; try discriminate; injection H as <-; split; try reflexivity; discriminate.
Qed.

Lemma py_lt_same_kind (a b : cell) :
  kind_of a = kind_of b -> exists v, py_lt a b = inr v.
Proof.
  destruct (py_lt a b) as [e | v] eqn:E; [| eauto].
  apply py_lt_inl in E. tauto.
Qed.

Lemma py_insert_inr (x : cell) (l r : list cell) :
  py_insert x l = inr r ->
  Permutation r (x :: l) /\
  match l with
  | [] => True
  | y :: _ => kind_of y = kind_of x
  end.
Proof.
  revert r. induction l as [| y l IH]; intros r H; simpl in H.
  - injection H as <-. split; [apply Permutation_refl | exact I].
  - inv_bind H. rename a into lt. pose proof (py_lt_inr _ _ _ Ha) as Hk.
    split; [| exact Hk]. destruct lt.
    + inv_bind H. injection H as <-. destruct (IH _ Ha0) as (Hp & _).
      eapply Permutation_trans; [apply perm_skip, Hp | apply perm_swap].
    + injection H as <-. apply Permutation_refl.
Qed.


Lemma py_insert_same_kind (x : cell) (l : list cell) :
  (forall y, In y l -> kind_of y = kind_of x) -> exists r, py_insert x l = inr r.
Proof.
  induction l as [| y l IH]; intros H; simpl; [eauto |].
  destruct (py_lt_same_kind y x (H y (or_introl eq_refl))) as (lt & ->). cbn [bind].
  destruct lt; [| eauto].
  destruct IH as (r & ->); [intros z Hz; apply H; right; exact Hz |].
  cbn [bind ok]. eauto.
Qed.











(** The order of strings by code point is strict and total. *)
Lemma String_ltb_trans (a b c : string) :
  String.ltb a b = true -> String.ltb b c = true -> String.ltb a c = true.
Proof.
  unfold String.ltb. intros Hab Hbc.
  destruct (String.compare a b) eqn:Eab; try discriminate.
  destruct (String.compare b c) eqn:Ebc; try discriminate.
  apply OrderedTypeEx.String_as_OT.cmp_lt in Eab, Ebc.
  pose proof (OrderedTypeEx.String_as_OT.lt_trans _ _ _ Eab Ebc) as Hac.
  apply OrderedTypeEx.String_as_OT.cmp_lt in Hac.
  unfold OrderedTypeEx.String_as_OT.cmp in Hac. rewrite Hac. reflexivity.
Qed.

Lemma String_ltb_total (a b : string) :
  a <> b -> String.ltb b a = false -> String.ltb a b = true.
Proof.
  unfold String.ltb. intros Hne H. rewrite String.compare_antisym in H.
  destruct (String.compare a b) eqn:E; simpl in H; try discriminate.
  - apply String.compare_eq_iff in E. contradiction.
  - reflexivity.
Qed.

Lemma kind_Text (c : cell) : kind_of c = Text -> exists s, c = Str s.
Proof. destruct c; try discriminate. eauto. Qed.

Lemma py_insert_text_sorted (x : cell) (l r : list cell) :
  kind_of x = Text ->
  (forall c, In c l -> kind_of c = Text) ->
  ~ In x l ->
  StronglySorted (fun a b => py_lt a b = inr true) l ->
  py_insert x l = inr r ->
  StronglySorted (fun a b => py_lt a b = inr true) r.
Proof.
  intros Hx. destruct (kind_Text _ Hx) as (sx & ->).
  revert r. induction l as [| y l IH]; intros r Hl Hnot Hs H; simpl in H.
  - injection H as <-. repeat constructor.
  - destruct (kind_Text y (Hl y (or_introl eq_refl))) as (sy & ->).
    apply StronglySorted_inv in Hs. destruct Hs as (Hs & Hy).
    cbn [py_lt bind ok] in H.
    destruct (String.ltb sy sx) eqn:E.
    + inv_bind H. injection H as <-.
      constructor.
      * apply (IH a); auto.
        -- intros c Hc. apply Hl. right. exact Hc.
        -- intros Hin. apply Hnot. right. exact Hin.
      * apply Forall_forall. intros z Hz.
        apply (Permutation_in z (proj1 (py_insert_inr _ _ _ Ha))) in Hz.
        destruct Hz as [<- | Hz].
        -- simpl. rewrite E. reflexivity.
        -- rewrite Forall_forall in Hy. apply Hy. exact Hz.
    + injection H as <-.
      assert (Hxy : String.ltb sx sy = true).
      { apply String_ltb_total; [| exact E].
        intros ->. apply Hnot. left. reflexivity. }
      constructor; [constructor; assumption |].
      constructor; [simpl; rewrite Hxy; reflexivity |].
      apply Forall_forall. intros z Hz.
      destruct (kind_Text z (Hl z (or_intror Hz))) as (sz & ->).
      rewrite Forall_forall in Hy. specialize (Hy _ Hz). simpl in Hy.
      injection Hy as Hy. simpl. rewrite (String_ltb_trans _ _ _ Hxy Hy). reflexivity.
Qed.

Lemma sorted_text (l : list cell) :
  (forall c, In c l -> kind_of c = Text) ->
  NoDup l ->
  exists r, sorted l = inr r /\ Permutation r l /\
            StronglySorted (fun a b => py_lt a b = inr true) r.
Proof.
  induction l as [| x l IH]; intros Hl Hnd.
  - exists []. repeat split; constructor.
  - apply NoDup_cons_iff in Hnd. destruct Hnd as (Hx & Hnd).
    destruct IH as (r' & Hr' & Hp & Hs); [intros c Hc; apply Hl; right; exact Hc | exact Hnd |].
    assert (Hk : forall y, In y r' -> kind_of y = Text).
    { intros y Hy. apply Hl. right. apply (Permutation_in y Hp). exact Hy. }
    destruct (py_insert_same_kind x r') as (r & Hr).
    { intros y Hy. rewrite (Hk y Hy). symmetry. apply Hl. left. reflexivity. }
    exists r. simpl. rewrite Hr'. cbn [bind]. split; [exact Hr |]. split.
    + eapply Permutation_trans; [apply (py_insert_inr _ _ _ Hr) | apply perm_skip, Hp].
    + apply (py_insert_text_sorted x r' r); auto.
      * apply Hl. left. reflexivity.
      * intros Hin. apply Hx. apply (Permutation_in x Hp). exact Hin.
Qed.

Lemma existsb_cell_eqb_Str (s : string) (seen : list cell) :
  existsb (cell_eqb (Str s)) seen = true <-> In (Str s) seen.
Proof.
  rewrite existsb_exists. split.
  - intros (d & Hd & He). destruct d; try discriminate.
    simpl in He. apply String.eqb_eq in He. subst. exact Hd.
  - intros H. exists (Str s). split; [exact H |]. simpl. apply String.eqb_refl.
Qed.

Lemma unique_from_text (l seen : list cell) :
  (forall c, In c l -> kind_of c = Text) ->
  NoDup (unique_from seen l) /\
  forall c, In c (unique_from seen l) <-> In c l /\ ~ In c seen.
Proof.
  revert seen. induction l as [| x l IH]; intros seen Hl.
  - simpl. split; [constructor | tauto].
  - destruct (kind_Text x (Hl x (or_introl eq_refl))) as (sx & ->).
    assert (Hl' : forall c, In c l -> kind_of c = Text)
      by (intros c Hc; apply Hl; right; exact Hc).
    cbn [unique_from].
    destruct (existsb (cell_eqb (Str sx)) seen) eqn:E.
    + apply existsb_cell_eqb_Str in E.
      destruct (IH seen Hl') as (Hnd & Hin). split; [exact Hnd |].
      intros c. rewrite Hin. simpl. split; [tauto |].
      intros ([<- | Hc] & Hn); [contradiction | tauto].
    + assert (Hnot : ~ In (Str sx) seen).
      { intros Hin. apply existsb_cell_eqb_Str in Hin. congruence. }
      destruct (IH (Str sx :: seen) Hl') as (Hnd & Hin). split.
      * constructor; [| exact Hnd]. rewrite Hin. simpl. tauto.
      * intros c. simpl. rewrite Hin. simpl. split.
        -- intros [<- | (Hc & Hn)]; [tauto |]. tauto.
        -- intros ([<- | Hc] & Hn); [tauto |].
           destruct (kind_Text c (Hl' c Hc)) as (sc & ->).
           destruct (string_dec sx sc) as [-> | Hne]; [tauto |].
           right. split; [exact Hc |]. intros [[= ->] | H]; tauto.
Qed.

(** X10. The options of a select box over a column of strings: the
    script gets them (no exception), every value of the column is among
    them once, nothing else is, and they stand in ascending order. *)
Theorem options_of_a_text_column (s : Series) :
  (forall c, In c s -> kind_of c = Text) ->
  exists options,
    sorted (unique s) = inr options /\
    NoDup options /\
    (forall c, In c options <-> In c s) /\
    StronglySorted (fun a b => py_lt a b = inr true) options.
Proof.
  intros Hs. destruct (unique_from_text s [] Hs) as (Hnd & Hin).
  destruct (sorted_text (unique s)) as (r & Hr & Hp & Hsorted).
  - intros c Hc. apply Hs. apply Hin. exact Hc.
  - exact Hnd.
  - exists r. split; [exact Hr |]. split; [| split; [| exact Hsorted]].
    + apply (Permutation_NoDup (Permutation_sym Hp)). exact Hnd.
    + intros c. split.
      * intros Hc. apply (Permutation_in c Hp) in Hc. apply Hin in Hc. tauto.
      * intros Hc. apply (Permutation_in c (Permutation_sym Hp)).
        apply Hin. simpl. tauto.
Qed.

Lemma options_of_a_text_column_witness :
  exists options,
    sorted (unique [Str "NASA"; Str "Department of Energy"; Str "NASA"]) = inr options /\
    NoDup options /\
    (forall c, In c options <->
               In c [Str "NASA"; Str "Department of Energy"; Str "NASA"]) /\
    StronglySorted (fun a b => py_lt a b = inr true) options.
Proof.
  apply (options_of_a_text_column [Str "NASA"; Str "Department of Energy"; Str "NASA"]).
  intros c [<- | [<- | [<- | []]]]; reflexivity.
Defined.

(** ** The feed: the description of a card *)

Lemma string_app_assoc (a b c : string) : ((a ++ b) ++ c = a ++ (b ++ c))%string.
Proof. induction a as [| x a IH]; simpl; [reflexivity | rewrite IH; reflexivity]. Qed.

Lemma string_app_empty (a : string) : (a ++ "")%string = a.
Proof. induction a as [| x a IH]; simpl; [reflexivity | rewrite IH; reflexivity]. Qed.

Lemma list_ascii_of_string_app (a b : string) :
  list_ascii_of_string (a ++ b) = list_ascii_of_string a ++ list_ascii_of_string b.
Proof. induction a as [| x a IH]; simpl; [reflexivity | rewrite IH; reflexivity]. Qed.

Lemma split_from_length (cur : list ascii) (s : string) :
  (length (PyStr.split_from cur s) <=
   match cur with [] => 0 | _ => 1 end + String.length s)%nat.
Proof.
  revert cur. induction s as [| c s IH]; intros cur.
  - destruct cur; simpl; lia.
  - cbn [PyStr.split_from String.length]. destruct (PyStr.is_space c).
    + rewrite length_app. specialize (IH []). simpl in IH.
      destruct cur; simpl; lia.
    + specialize (IH (c :: cur)). destruct cur; simpl in *; lia.
Qed.

Lemma split_length (s : string) : (length (PyStr.split s) <= String.length s)%nat.
Proof. apply (split_from_length [] s). Qed.

Lemma split_from_blank_free (w : string) (cur : list ascii) (rest : string) :
  forallb (fun c => negb (PyStr.is_space c)) (list_ascii_of_string w) = true ->
  PyStr.split_from cur (w ++ rest) =
  PyStr.split_from (rev (list_ascii_of_string w) ++ cur) rest.
Proof.
  revert cur. induction w as [| c w IH]; intros cur H; [reflexivity |].
  simpl in H. apply andb_true_iff in H. destruct H as (Hc & Hw).
  apply negb_true_iff in Hc.
  change (String c w ++ rest)%string with (String c (w ++ rest)).
  cbn [PyStr.split_from]. rewrite Hc, (IH (c :: cur) Hw).
  cbn [list_ascii_of_string rev]. rewrite <- app_assoc. reflexivity.
Qed.

Lemma is_word_inv (w : string) :
  PyStr.is_word w = true ->
  w <> "" /\ forallb (fun c => negb (PyStr.is_space c)) (list_ascii_of_string w) = true.
Proof.
  unfold PyStr.is_word. intros H. apply andb_true_iff in H. destruct H as (Hne & Hw).
  split; [| exact Hw]. intros ->. discriminate.
Qed.

Lemma is_word_app (w v : string) :
  PyStr.is_word w = true ->
  forallb (fun c => negb (PyStr.is_space c)) (list_ascii_of_string v) = true ->
  PyStr.is_word (w ++ v) = true.
Proof.
  intros Hw Hv. destruct (is_word_inv w Hw) as (Hne & Hb).
  unfold PyStr.is_word. rewrite list_ascii_of_string_app, forallb_app, Hb, Hv.
  destruct w; [contradiction | reflexivity].
Qed.

(** A word followed by the end of the text or by a blank is the next word
    of the text. *)
Lemma split_word (w : string) : PyStr.is_word w = true -> PyStr.split w = [w].
Proof.
  intros H. destruct (is_word_inv w H) as (Hne & Hb).
  unfold PyStr.split. rewrite <- (string_app_empty w) at 1.
  rewrite (split_from_blank_free w [] "" Hb), app_nil_r.
  destruct w as [| c w]; [contradiction |].
  cbn [PyStr.split_from list_ascii_of_string rev].
  destruct (rev (list_ascii_of_string w) ++ [c]) eqn:E.
  - destruct (rev (list_ascii_of_string w)); discriminate.
  - rewrite <- E, rev_app_distr, rev_involutive. simpl.
    rewrite string_of_list_ascii_of_string. reflexivity.
Qed.

Lemma split_word_blank (w rest : string) :
  PyStr.is_word w = true ->
  PyStr.split (w ++ String " " rest) = w :: PyStr.split rest.
Proof.
  intros H. destruct (is_word_inv w H) as (Hne & Hb).
  unfold PyStr.split. rewrite (split_from_blank_free w [] _ Hb), app_nil_r.
  destruct w as [| c w]; [contradiction |].
  cbn [PyStr.split_from list_ascii_of_string rev].
  change (PyStr.is_space " ") with true. cbv iota.
  destruct (rev (list_ascii_of_string w) ++ [c]) eqn:E.
  - destruct (rev (list_ascii_of_string w)); discriminate.
  - rewrite <- E, rev_app_distr, rev_involutive. simpl.
    rewrite string_of_list_ascii_of_string. reflexivity.
Qed.

(** [split] gives words. *)
Lemma split_from_words (cur : list ascii) (s : string) :
  forallb (fun c => negb (PyStr.is_space c)) cur = true ->
  Forall (fun w => PyStr.is_word w = true) (PyStr.split_from cur s).
Proof.
  assert (Hflush : forall cur,
    forallb (fun c => negb (PyStr.is_space c)) cur = true ->
    Forall (fun w => PyStr.is_word w = true)
      match cur with [] => [] | _ => [string_of_list_ascii (rev cur)] end).
  { intros [| c l] H; constructor; [| constructor].
    unfold PyStr.is_word. rewrite list_ascii_of_string_of_list_ascii.
    apply andb_true_iff. split.
    - simpl rev. destruct (rev l); reflexivity.
    - apply forallb_forall. intros x Hx. apply in_rev in Hx.
      rewrite forallb_forall in H. apply H. exact Hx. }
  revert cur. induction s as [| c s IH]; intros cur H.
  - apply Hflush. exact H.
  - cbn [PyStr.split_from]. destruct (PyStr.is_space c) eqn:E.
    + apply Forall_app. split; [apply Hflush; exact H | apply IH; reflexivity].
    + apply IH. simpl. rewrite E, H. reflexivity.
Qed.

Lemma split_words (s : string) : Forall (fun w => PyStr.is_word w = true) (PyStr.split s).
Proof. apply split_from_words. reflexivity. Qed.

(** Words joined by one space, with the marker at the end, split into
    the same words, the last one carrying the marker. *)
Lemma split_join_marker (ws : list string) (w : string) :
  Forall (fun w => PyStr.is_word w = true) ws ->
  PyStr.is_word w = true ->
  PyStr.split (PyStr.join " " (ws ++ [w]) ++ "...") = ws ++ [(w ++ "...")%string].
Proof.
  intros Hws Hw. induction Hws as [| v ws Hv Hws IH].
  - simpl. apply split_word. apply is_word_app; [exact Hw | reflexivity].
  - cbn [List.app].
    assert (E : PyStr.join " " (v :: ws ++ [w]) =
                (v ++ " " ++ PyStr.join " " (ws ++ [w]))%string).
    { destruct ws; reflexivity. }
    rewrite E, string_app_assoc.
    change ((" " ++ PyStr.join " " (ws ++ [w])) ++ "...")%string
      with (String " " (PyStr.join " " (ws ++ [w]) ++ "...")).
    rewrite (split_word_blank v _ Hv), IH. reflexivity.
Qed.

Lemma firstn_snoc {A : Type} (n : nat) (l : list A) (d : A) :
  (n < length l)%nat -> firstn (S n) l = firstn n l ++ [nth n l d].
Proof.
  revert l. induction n as [| n IH]; intros [| x l] H; simpl in H; try lia.
  - reflexivity.
  - cbn [firstn nth List.app]. rewrite <- (IH l) by lia. reflexivity.
Qed.

Lemma truncate_by_words (description : string) :
  truncate description =
  if (500 <? length (PyStr.split description))%nat
  then (PyStr.join " " (firstn 500 (PyStr.split description)) ++ "...")%string
  else description.
Proof.
  unfold truncate.
  destruct (500 <? String.length description)%nat eqn:E; [reflexivity |].
  apply Nat.ltb_ge in E. pose proof (split_length description) as H.
  destruct (500 <? length (PyStr.split description))%nat eqn:E'; [| reflexivity].
  apply Nat.ltb_lt in E'. lia.
Qed.

Lemma truncate_words (description : string) :
  (500 < length (PyStr.split description))%nat ->
  PyStr.split (truncate description) =
  firstn 499 (PyStr.split description) ++
  [(nth 499 (PyStr.split description) "" ++ "...")%string].
Proof.
  intros H. rewrite truncate_by_words.
  destruct (500 <? length (PyStr.split description))%nat eqn:E;
    [| apply Nat.ltb_ge in E; lia].
  pose proof (split_words description) as Hw.
  rewrite (firstn_snoc 499 _ "") by lia.
  apply split_join_marker.
  - apply Forall_forall. intros w Hin. rewrite Forall_forall in Hw. apply Hw.
    rewrite <- (firstn_skipn 499 (PyStr.split description)). apply in_or_app. left. exact Hin.
  - rewrite Forall_forall in Hw. apply Hw. apply nth_In. lia.
Qed.

Lemma truncate_at_most_500 (description : string) :
  (length (PyStr.split (truncate description)) <= 500)%nat.
Proof.
  destruct (500 <? length (PyStr.split description))%nat eqn:E.
  - apply Nat.ltb_lt in E. rewrite (truncate_words _ E).
    rewrite length_app, length_firstn. cbn [length]. lia.
  - rewrite truncate_by_words, E. apply Nat.ltb_ge in E. exact E.
Qed.

(** X11. What a card shows of a description depends on its words only:
    a description of at most 500 words is shown as it is, whatever its
    length in characters; a longer one is shown as its first 500 words,
    one space between them, followed by the marker.  The words of the
    shortened text are the first 500 words of the description, the last
    one carrying the marker. *)
Theorem truncate_cuts_after_500_words (description : string) :
  truncate description =
    (if (500 <? length (PyStr.split description))%nat
     then (PyStr.join " " (firstn 500 (PyStr.split description)) ++ "...")%string
     else description) /\
  ((500 < length (PyStr.split description))%nat ->
   PyStr.split (truncate description) =
   firstn 499 (PyStr.split description) ++
   [(nth 499 (PyStr.split description) "" ++ "...")%string]).
Proof.
  split; [apply truncate_by_words | apply truncate_words].
Qed.

(** X12. A card never shows more than 500 words, and shortening a
    shortened description changes nothing. *)
Theorem truncate_is_bounded_and_idempotent (description : string) :
  (length (PyStr.split (truncate description)) <= 500)%nat /\
  truncate (truncate description) = truncate description.
Proof.
  split; [apply truncate_at_most_500 |].
  rewrite (truncate_by_words (truncate description)).
  pose proof (truncate_at_most_500 description) as H.
  apply Nat.ltb_ge in H. rewrite H. reflexivity.
Qed.

(** ** The table of contracts *)

Lemma later_or_equal_total (a b : cell) :
  later_or_equal a b = false -> later_or_equal b a = true.
Proof.
  destruct a, b; simpl; try discriminate; try reflexivity.
  intros H. apply Z.leb_gt in H. apply Z.leb_le. lia.
Qed.

Lemma later_or_equal_trans (a b c : cell) :
  later_or_equal a b = true -> later_or_equal b c = true -> later_or_equal a c = true.
Proof.
  destruct a, b, c; simpl; try discriminate; try reflexivity.
  intros H1 H2. apply Z.leb_le in H1, H2. apply Z.leb_le. lia.
Qed.

Lemma In_combine_seq {A : Type} (d : A) (l : list A) (start i : nat) (c : A) :
  In (i, c) (combine (seq start (length l)) l) ->
  (start <= i)%nat /\ c = nth (i - start) l d.
Proof.
  revert start. induction l as [| x l IH]; intros start H; simpl in H; [contradiction |].
  destruct H as [[= <- <-] | H].
  - split; [lia |]. rewrite Nat.sub_diag. reflexivity.
  - destruct (IH _ H) as (Hle & ->). split; [lia |].
    replace (i - start)%nat with (S (i - S start)) by lia. reflexivity.
Qed.

Lemma StronglySorted_map_In {A B : Type} (R : A -> A -> Prop) (R' : B -> B -> Prop)
    (f : A -> B) (l : list A) :
  (forall a b, In a l -> In b l -> R a b -> R' (f a) (f b)) ->
  StronglySorted R l -> StronglySorted R' (map f l).
Proof.
  intros H Hs. induction Hs as [| a l Hs IH Ha]; simpl; constructor.
  - apply IH. intros x y Hx Hy. apply H; right; assumption.
  - apply Forall_forall. intros y Hy. apply in_map_iff in Hy.
    destruct Hy as (b & <- & Hb). rewrite Forall_forall in Ha.
    apply H; [left; reflexivity | right; exact Hb | apply Ha; exact Hb].
Qed.

(** [argsort_desc] rearranges the positions of the column so that the
    dates go from the latest to the earliest, the missing ones last. *)
Lemma argsort_desc_perm (s : Series) : Permutation (argsort_desc s) (seq 0 (length s)).
Proof.
  unfold argsort_desc.
  rewrite <- (map_fst_combine (seq 0 (length s)) s) at 2 by apply length_seq.
  apply Permutation_map, sort_perm.
Qed.

Lemma argsort_desc_sorted (s : Series) :
  StronglySorted (fun i j => later_or_equal (nth i s NA) (nth j s NA) = true)
                 (argsort_desc s).
Proof.
  unfold argsort_desc.
  apply (StronglySorted_map_In
           (fun a b => later_or_equal (snd a) (snd b) = true)).
  - intros [i c] [j c'] Hi Hj H.
    apply (Permutation_in _ (sort_perm _ _)) in Hi, Hj.
    destruct (In_combine_seq NA _ _ _ _ Hi) as (_ & Hc).
    destruct (In_combine_seq NA _ _ _ _ Hj) as (_ & Hc').
    rewrite Nat.sub_0_r in Hc, Hc'. simpl in *. subst c c'. exact H.
  - apply (sort_sorted (fun a b : nat * cell => later_or_equal (snd a) (snd b))).
    + intros a b. apply later_or_equal_total.
    + intros a b c. apply later_or_equal_trans.
Qed.

Lemma getitems_inr (df : DataFrame) (names : list string) (cols : list (string * Series)) :
  getitems df names = inr cols ->
  map fst cols = names /\
  forall name, In name names ->
    exists s, getitem df name = inr s /\ In (name, s) cols.
Proof.
  unfold getitems. intros H. split.
  - apply mapM_inr_Forall2 in H. induction H as [| n c names cols Hn _ IH]; [reflexivity |].
    inv_bind Hn. injection Hn as <-. simpl. rewrite IH. reflexivity.
  - intros name Hin. destruct (mapM_inr_In _ _ _ _ H Hin) as (c & Hc & Hc').
    inv_bind Hc. injection Hc as <-. eauto.
Qed.

Lemma strftime_inr (fmt : Z -> string) (c : cell) (v : string) :
  strftime fmt c = inr v -> exists t, c = Stamp t.
Proof. destruct c; simpl; try discriminate. eauto. Qed.

(** X13. When the table of contracts is shown, it has the six display
    columns in their order; its rows are the rows of the subset, each
    once, rearranged so that the action dates go from the latest to the
    earliest; the identifier, recipient, agency and description cells
    are shown as they are; and no action date is missing. *)
Theorem detailed_table_shows_the_rows_latest_first
    (filtered : DataFrame) (table : list (string * Series)) :
  detailed_table filtered = inr table ->
  map fst table = display_cols /\
  exists dates order,
    getitem filtered "action_date" = inr dates /\
    Permutation order (seq 0 (length dates)) /\
    StronglySorted
      (fun i j => later_or_equal (nth i dates NA) (nth j dates NA) = true) order /\
    (forall c, In c dates -> exists t, c = Stamp t) /\
    (forall name,
       In name ["award_id"; "recipient_name"; "awarding_agency_name";
                "award_description"] ->
       exists col, getitem filtered name = inr col /\
                   In (name, take order col) table).
Proof.
  unfold detailed_table. intros H.
  inv_bind H. rename a into cols, Ha into Hcols.
  inv_bind H. rename a into dates, Ha into Hdates.
  destruct (getitems_inr _ _ _ Hcols) as (Hnames & Hget).
  split.
  { rewrite <- Hnames. apply mapM_inr_Forall2 in H. clear - H.
    induction H as [| c r cols table Hc _ IH]; [reflexivity |].
    inv_bind Hc. injection Hc as <-. simpl. rewrite IH. reflexivity. }
  exists dates, (argsort_desc dates).
  split; [exact Hdates |].
  split; [apply argsort_desc_perm |].
  split; [apply argsort_desc_sorted |].
  assert (Hshown : forall name, In name display_cols ->
            exists col s, getitem filtered name = inr col /\
                          format_column name (take (argsort_desc dates) col) = inr s /\
                          In (name, s) table).
  { intros name Hin. destruct (Hget name Hin) as (col & Hcol & Hc).
    destruct (mapM_inr_In _ _ _ _ H Hc) as (r & Hr & Hr').
    inv_bind Hr. injection Hr as <-. simpl in Ha. exists col, a. auto. }
  split.
  - destruct (Hshown "action_date") as (col & s & Hcol & Hs & _); [find_in |].
    rewrite Hdates in Hcol. injection Hcol as <-.
    unfold format_column in Hs. eval_eqb.
    intros c Hc. destruct (In_nth _ _ NA Hc) as (i & Hi & <-).
    assert (Hin : In (nth i dates NA) (take (argsort_desc dates) dates)).
    { unfold take. apply in_map_iff. exists i. split; [reflexivity |].
      apply (Permutation_in i (Permutation_sym (argsort_desc_perm dates))).
      apply in_seq. lia. }
    destruct (mapM_inr_In _ _ _ _ Hs Hin) as (b & Hb & _).
    inv_bind Hb. apply (strftime_inr _ _ _ Ha).
  - intros name Hin. destruct (Hshown name) as (col & s & Hcol & Hs & Ht).
    { simpl in Hin. unfold display_cols. simpl. tauto. }
    exists col. split; [exact Hcol |].
    unfold format_column in Hs.
    destruct Hin as [<- | [<- | [<- | [<- | []]]]]; revert Hs; eval_eqb;
      intros [= <-]; exact Ht.
Qed.

Lemma detailed_table_shows_the_rows_latest_first_witness :
  exists table,
    detailed_table Examples.loaded_csv = inr table /\
    map fst table = display_cols /\
    exists dates order,
      getitem Examples.loaded_csv "action_date" = inr dates /\
      Permutation order (seq 0 (length dates)) /\
      StronglySorted
        (fun i j => later_or_equal (nth i dates NA) (nth j dates NA) = true) order /\
      (forall c, In c dates -> exists t, c = Stamp t) /\
      (forall name,
         In name ["award_id"; "recipient_name"; "awarding_agency_name";
                  "award_description"] ->
         exists col, getitem Examples.loaded_csv name = inr col /\
                     In (name, take order col) table).
Proof.
  eexists. split; [vm_compute; reflexivity |].
  apply (detailed_table_shows_the_rows_latest_first Examples.loaded_csv).
  vm_compute. reflexivity.
Defined.

(** ** A run of the dashboard on a clean table *)
























(** ** From the file to the end of the script *)

Section CleanFileFacts.

Variable parse_datetime : string -> option Z.
Variable parse_float : string -> option Q.





End CleanFileFacts.


(** ** The metrics and the theme chart *)

Lemma unique_from_length (seen l : list cell) :
  (length (unique_from seen l) <= length l)%nat.
Proof.
  revert seen. induction l as [| c l IH]; intros seen; simpl; [lia |].
  destruct (existsb (cell_eqb c) seen); [specialize (IH seen) | specialize (IH (c :: seen))];
    simpl; lia.
Qed.

Lemma filter_length_le {A : Type} (p : A -> bool) (l : list A) :
  (length (filter p l) <= length l)%nat.
Proof. induction l as [| a l IH]; simpl; [lia |]. destruct (p a); simpl; lia. Qed.

Lemma NoDup_map_Str (names : list string) : NoDup names -> NoDup (map Str names).
Proof.
  induction 1 as [| n names Hn _ IH]; simpl; constructor; [| exact IH].
  intros Hin. apply in_map_iff in Hin. destruct Hin as (n' & [= ->] & Hin). contradiction.
Qed.

(** X16. The metric of unique recipients never exceeds the metric of
    total contracts; and on a column of names (some of them missing) it
    is the number of different names: every name counts once, a missing
    name does not count. *)
Theorem unique_recipients_counts_each_name_once
    (filtered : DataFrame) (recipient : Series) :
  well_formed filtered ->
  getitem filtered "recipient_name" = inr recipient ->
  (nunique recipient <= nrows filtered)%nat /\
  (Forall (fun c => c = NA \/ kind_of c = Text) recipient ->
   forall names,
     NoDup names ->
     (forall name, In name names <-> In (Str name) recipient) ->
     nunique recipient = length names).
Proof.
  intros Hwf Hr. split.
  - rewrite <- (getitem_length _ _ _ Hwf Hr). unfold nunique, unique.
    eapply Nat.le_trans; [apply unique_from_length | apply filter_length_le].
  - intros Hcells names Hnd Hnames. unfold nunique.
    rewrite Forall_forall in Hcells.
    assert (Htext : forall c, In c (filter notna recipient) -> kind_of c = Text).
    { intros c Hc. apply filter_In in Hc. destruct Hc as (Hc & Hn).
      destruct (Hcells c Hc) as [-> | H]; [discriminate | exact H]. }
    destruct (unique_from_text (filter notna recipient) [] Htext) as (Hnd' & Hin).
    rewrite <- (length_map Str names). apply Permutation_length.
    apply NoDup_Permutation; [exact Hnd' | apply NoDup_map_Str; exact Hnd |].
    intros c. fold (unique (filter notna recipient)) in Hin. rewrite Hin. split.
    + intros (Hc & _). destruct (kind_Text c (Htext c Hc)) as (n & ->).
      apply in_map. apply Hnames. apply filter_In in Hc. tauto.
    + intros Hc. apply in_map_iff in Hc. destruct Hc as (n & <- & Hn).
      split; [| simpl; tauto]. apply filter_In. split; [apply Hnames; exact Hn | reflexivity].
Qed.

Lemma unique_recipients_counts_each_name_once_witness :
  (nunique [Str "Acme"; Str "Beta"; Str "Acme"] <= nrows Examples.loaded_csv)%nat /\
  nunique [Str "Acme"; Str "Beta"; Str "Acme"] = length ["Beta"; "Acme"].
Proof.
  destruct (unique_recipients_counts_each_name_once Examples.loaded_csv
              [Str "Acme"; Str "Beta"; Str "Acme"]) as (Hle & Hcount).
  - apply well_formed_check; reflexivity.
  - reflexivity.
  - split; [exact Hle |]. apply Hcount.
    + apply Forall_forall. intros c [<- | [<- | [<- | []]]]; right; reflexivity.
    + constructor; [simpl; intros [H | []]; discriminate |].
      constructor; [intros [] | constructor].
    + intros name. simpl. split.
      * intros [<- | [<- | []]]; auto.
      * intros [[= <-] | [[= <-] | [[= <-] | []]]]; auto.
Defined.

(** The sum of a boolean column is the number of its rows that are set. *)
Lemma series_sum_flags (flags : Series) :
  Forall is_flag flags ->
  series_sum flags ==
  inject_Z (Z.of_nat (length (filter (cell_eqb (Flag true)) flags))).
Proof.
  unfold series_sum.
  induction 1 as [| c flags (b & ->) _ IH]; [reflexivity |].
  cbn [map Qsum fold_right filter]. fold (Qsum (map cell_value flags)). rewrite IH.
  destruct b; cbn [cell_eqb Bool.eqb cell_value length].
  - rewrite Nat2Z.inj_succ, <- Z.add_1_l, inject_Z_plus. reflexivity.
  - lra.
Qed.

(** X17. The theme chart has one bar for every theme column, in the
    order of the columns and under the label of the column; over a
    column of booleans the bar is the number of rows of the subset that
    carry the theme. *)
Theorem theme_bars_count_the_flagged_rows
    (filtered : DataFrame) (theme_cols : list string) (themes : list (string * Q)) :
  theme_data filtered theme_cols = inr themes ->
  Forall2 (fun col bar =>
             fst bar = theme_label col /\
             exists flags,
               getitem filtered col = inr flags /\
               (Forall is_flag flags ->
                snd bar ==
                inject_Z (Z.of_nat (length (filter (cell_eqb (Flag true)) flags)))))
          theme_cols themes.
Proof.
  unfold theme_data, getitems. intros H. inv_bind H. injection H as <-.
  apply mapM_inr_Forall2 in Ha.
  induction Ha as [| col c theme_cols cols Hc _ IH]; simpl; constructor; [| exact IH].
  apply bind_inr in Hc. destruct Hc as (flags & Hflags & Hc).
  injection Hc as <-. simpl. split; [reflexivity |].
  exists flags. split; [exact Hflags |]. apply series_sum_flags.
Qed.

Lemma theme_bars_count_the_flagged_rows_witness :
  exists themes,
    theme_data Examples.loaded_csv ["theme_gender"; "theme_race_equity"] = inr themes /\
    Forall2 (fun col bar =>
               fst bar = theme_label col /\
               exists flags,
                 getitem Examples.loaded_csv col = inr flags /\
                 (Forall is_flag flags ->
                  snd bar ==
                  inject_Z (Z.of_nat (length (filter (cell_eqb (Flag true)) flags)))))
            ["theme_gender"; "theme_race_equity"] themes.
Proof.
  eexists. split; [vm_compute; reflexivity |].
  apply (theme_bars_count_the_flagged_rows Examples.loaded_csv).
  vm_compute. reflexivity.
Defined.

(** ** When the sidebar is shown *)

Lemma cell_eqb_refl (c : cell) : cell_eqb c c = true.
Proof.
  destruct c as [| s | x | b | t]; simpl.
  - reflexivity.
  - apply String.eqb_refl.
  - apply Qeq_bool_iff. reflexivity.
  - destruct b; reflexivity.
  - apply Z.eqb_refl.
Qed.








(** ** The filter: order of the themes, wider selections *)

Lemma existsb_same_elements {A : Type} (p : A -> bool) (l l' : list A) :
  (forall a, In a l <-> In a l') -> existsb p l = existsb p l'.
Proof.
  intros H. apply eq_true_iff_eq. rewrite !existsb_exists.
  split; intros (a & Ha & Hp); exists a; (split; [apply H; exact Ha | exact Hp]).
Qed.

Lemma nth_ext_bool (l l' : list bool) :
  length l = length l' ->
  (forall i, (i < length l)%nat -> nth i l false = nth i l' false) ->
  l = l'.
Proof. intros Hlen H. apply (nth_ext l l' false false Hlen H). Qed.

(** X19. The theme filter depends on which themes are selected, not on
    the order in which they were picked nor on a theme picked twice:
    two selections with the same themes give the same mask. *)
Theorem theme_filter_ignores_the_order
    (df : DataFrame) (themes themes' : list string) (m : list bool)
    (flags : string -> list bool) :
  well_formed df ->
  length m = nrows df ->
  (forall t, In t themes -> getitem df (theme_column t) = inr (map Flag (flags t))) ->
  (forall t, In t themes <-> In t themes') ->
  apply_themes df themes' m = apply_themes df themes m /\
  exists m', apply_themes df themes m = inr m'.
Proof.
  intros Hwf Hm Hflags Hsame.
  assert (Hflags' : forall t, In t themes' ->
            getitem df (theme_column t) = inr (map Flag (flags t)))
    by (intros t Ht; apply Hflags, Hsame, Ht).
  assert (Hlen : forall t, In t themes -> length (flags t) = nrows df).
  { intros t Ht. rewrite <- (length_map Flag).
    apply (getitem_length _ _ _ Hwf (Hflags t Ht)). }
  assert (Hlen' : forall t, In t themes' -> length (flags t) = nrows df)
    by (intros t Ht; apply Hlen, Hsame, Ht).
  unfold apply_themes, theme_mask.
  destruct themes as [| t ts] eqn:E, themes' as [| t' ts'] eqn:E'.
  - split; [reflexivity | eauto].
  - destruct (proj2 (Hsame t') (or_introl eq_refl)).
  - destruct (proj1 (Hsame t) (or_introl eq_refl)).
  - rewrite <- E in *. rewrite <- E' in *.
    rewrite (theme_loop_flags df flags themes _ Hflags).
    rewrite (theme_loop_flags df flags themes' _ Hflags'). cbn [bind ok].
    split; [| eauto]. f_equal. f_equal.
    apply nth_ext_bool.
    + rewrite (fold_or_length flags themes' _ (nrows df)), (fold_or_length flags themes _ (nrows df));
        auto using repeat_length.
    + intros i Hi.
      rewrite (fold_or_length flags themes' _ (nrows df)) in Hi; auto using repeat_length.
      rewrite (fold_or_nth flags themes' _ (nrows df)), (fold_or_nth flags themes _ (nrows df));
        auto using repeat_length.
      f_equal. apply existsb_same_elements. intros t0. symmetry. apply Hsame.
Qed.

Lemma theme_filter_ignores_the_order_witness :
  apply_themes Examples.loaded_csv ["Race Equity"; "Gender"; "Race Equity"] [true; true; true] =
  apply_themes Examples.loaded_csv ["Gender"; "Race Equity"] [true; true; true] /\
  exists m', apply_themes Examples.loaded_csv ["Gender"; "Race Equity"] [true; true; true]
             = inr m'.
Proof.
  apply (theme_filter_ignores_the_order Examples.loaded_csv
           ["Gender"; "Race Equity"] ["Race Equity"; "Gender"; "Race Equity"]
           [true; true; true]
           (fun t => if String.eqb t "Gender" then [true; false; false]
                     else [false; false; true])).
  - apply well_formed_check; reflexivity.
  - reflexivity.
  - intros t [<- | [<- | []]]; reflexivity.
  - intros t. simpl. tauto.
Defined.

(** *** Wider selections *)

Lemma date_in_range_wider (lo hi lo' hi' : Z) (c : cell) :
  (lo' <= lo)%Z -> (hi <= hi')%Z ->
  date_in_range lo hi c = true -> date_in_range lo' hi' c = true.
Proof.
  intros Hlo Hhi. destruct c; simpl; try discriminate.
  intros H. apply andb_true_iff in H. destruct H as (H1 & H2).
  apply Z.leb_le in H1, H2. apply andb_true_iff. split; apply Z.leb_le; lia.
Qed.

Lemma mask_le_map {A : Type} (p q : A -> bool) (l : list A) :
  (forall a, p a = true -> q a = true) -> mask_le (map p l) (map q l).
Proof. intros H. induction l; simpl; constructor; auto. Qed.

Lemma mask_le_zip_andb_mono (m m' x : list bool) :
  mask_le m m' -> mask_le (zip_with andb m x) (zip_with andb m' x).
Proof.
  unfold zip_with. intros H. revert x.
  induction H as [| b b' m m' Hb _ IH]; intros [| c x]; simpl; try constructor.
  - intros Hbc. apply andb_true_iff in Hbc. destruct Hbc as (H1 & H2).
    rewrite (Hb H1), H2. reflexivity.
  - apply IH.
Qed.

Lemma apply_choice_wider (df : DataFrame) (col selected selected' : string)
    (m m' r : list bool) :
  mask_le m m' ->
  selected' = "All" \/ selected' = selected ->
  apply_choice df col selected m = inr r ->
  exists r', apply_choice df col selected' m' = inr r' /\ mask_le r r'.
Proof.
  intros Hle [-> | ->] H.
  - exists m'. split; [reflexivity |].
    eapply mask_le_trans; [apply (apply_choice_le _ _ _ _ _ H) | exact Hle].
  - unfold apply_choice in *. destruct (negb (selected =? "All")%string).
    + inv_bind H. injection H as <-. rewrite Ha. cbn [bind ok].
      eexists. split; [reflexivity |]. apply mask_le_zip_andb_mono. exact Hle.
    + injection H as <-. eauto.
Qed.

Lemma apply_themes_wider (df : DataFrame) (themes themes' : list string)
    (m m' r : list bool) :
  mask_le m m' ->
  themes' = [] \/ themes' = themes ->
  apply_themes df themes m = inr r ->
  exists r', apply_themes df themes' m' = inr r' /\ mask_le r r'.
Proof.
  intros Hle [-> | ->] H.
  - exists m'. split; [reflexivity |].
    eapply mask_le_trans; [apply (apply_themes_le _ _ _ _ H) | exact Hle].
  - unfold apply_themes in *. destruct themes as [| t ts].
    + injection H as <-. eauto.
    + inv_bind H. injection H as <-. rewrite Ha. cbn [bind ok].
      eexists. split; [reflexivity |]. apply mask_le_zip_andb_mono. exact Hle.
Qed.

Lemma select_length_mask_le {A : Type} (m m' : list bool) (l : list A) :
  mask_le m m' -> (length (select m l) <= length (select m' l))%nat.
Proof.
  intros H. revert l. induction H as [| b b' m m' Hb _ IH]; intros l.
  - simpl. lia.
  - destruct l as [| a l]; [simpl; lia |]. specialize (IH l).
    destruct b; [rewrite (Hb eq_refl) |]; simpl; [lia |].
    destruct b'; simpl; lia.
Qed.

(** X20. Wider selections never fail where narrower ones work, and never
    lose a row: when the filter gives a subset for some selections, it
    gives one for every selection that asks for no more (a date range
    around the other one; for the agency, the size and the themes the
    same choice or none), every row kept before is kept, and the subset
    has at least as many rows. *)
Theorem wider_selections_keep_the_rows
    (df : DataFrame) (narrow wide : Inputs) (m : list bool) :
  relaxes wide narrow ->
  mask df narrow = inr m ->
  exists m',
    mask df wide = inr m' /\
    mask_le m m' /\
    filtered_df df wide = inr (boolean_index df m') /\
    (nrows (boolean_index df m) <= nrows (boolean_index df m'))%nat.
Proof.
  intros (Hlo & Hhi & Hagency & Hsize & Hthemes) H.
  unfold mask in H. inv_bind H. rename a into action, Ha into Haction.
  apply bind_inr in H. destruct H as (m1 & H1 & H).
  apply bind_inr in H. destruct H as (m2 & H2 & H).
  destruct (apply_choice_wider df "awarding_agency_name" _ _ _
              (map (date_in_range (fst (date_range wide)) (snd (date_range wide))) action)
              _ (mask_le_map _ _ action
                   (fun c => date_in_range_wider _ _ _ _ c Hlo Hhi)) Hagency H1)
    as (m1' & H1' & L1).
  destruct (apply_choice_wider df "award_size_category" _ _ _ _ _ L1 Hsize H2)
    as (m2' & H2' & L2).
  destruct (apply_themes_wider df _ _ _ _ _ L2 Hthemes H) as (m' & H' & L).
  assert (Hm' : mask df wide = inr m').
  { unfold mask. rewrite Haction. cbn [bind ok]. rewrite H1'. cbn [bind].
    rewrite H2'. cbn [bind]. exact H'. }
  exists m'. split; [exact Hm' |]. split; [exact L |]. split.
  - unfold filtered_df. rewrite Hm'. reflexivity.
  - simpl. apply select_length_mask_le. exact L.
Qed.

Lemma wider_selections_keep_the_rows_witness :
  exists m',
    mask Examples.loaded_csv Examples.everything = inr m' /\
    mask_le [true; false; false] m' /\
    filtered_df Examples.loaded_csv Examples.everything
      = inr (boolean_index Examples.loaded_csv m') /\
    (nrows (boolean_index Examples.loaded_csv [true; false; false]) <=
     nrows (boolean_index Examples.loaded_csv m'))%nat.
Proof.
  apply (wider_selections_keep_the_rows Examples.loaded_csv
           Examples.gender_selected Examples.everything [true; false; false]).
  - unfold relaxes. simpl. repeat split; try lia; left; reflexivity.
  - reflexivity.
Defined.

(** ** What a run shows: cards and error notices *)

Lemma shown_bind {A B : Type} (sort : ui_event -> bool) (m : ui A) (f : A -> ui B) :
  shown sort (ui_bind m f) =
  (shown sort m + match snd m with
                  | inl _ => 0
                  | inr a => shown sort (f a)
                  end)%nat.
Proof.
  unfold shown. destruct m as [out [e | a]]; simpl; [lia |].
  destruct (f a) as [out' r]. simpl. rewrite filter_app, length_app. reflexivity.
Qed.

Lemma shown_emit (sort : ui_event -> bool) (e : ui_event) :
  shown sort (emit e) = if sort e then 1%nat else 0%nat.
Proof. unfold shown, emit. simpl. destruct (sort e); reflexivity. Qed.

Lemma shown_lift {A : Type} (sort : ui_event -> bool) (r : result A) :
  shown sort (lift r) = 0%nat.
Proof. reflexivity. Qed.

Lemma shown_iter {A : Type} (sort : ui_event -> bool) (f : A -> ui unit)
    (l : list A) (k : nat) :
  (forall a, shown sort (f a) <= k)%nat ->
  (shown sort (ui_iter f l) <= k * length l)%nat.
Proof.
  intros H. induction l as [| a l IH]; [simpl; unfold shown; simpl; lia |].
  cbn [ui_iter length]. rewrite shown_bind. specialize (H a).
  destruct (snd (f a)); lia.
Qed.

(** One step of a run: the event of an [emit] is counted, a [lift] shows
    nothing and either stops the run or goes on. *)
Ltac count_step :=
  rewrite shown_bind;
  first [ rewrite shown_emit; cbn [snd emit ok is_card is_error Nat.add]
        | rewrite shown_lift; cbn [snd lift Nat.add];
          match goal with
          | |- context [match ?r with inl _ => 0%nat | inr _ => _ end] =>
              destruct r; [lia |]
          end ].

Lemma sidebar_shows_none (sort : ui_event -> bool) (df : DataFrame) :
  (forall e, sort e = true -> is_card e = true \/ is_error e = true) ->
  shown sort (sidebar df) = 0%nat.
Proof.
  intros Hsort.
  assert (Hno : forall e, is_card e = false -> is_error e = false -> sort e = false).
  { intros e H1 H2. destruct (sort e) eqn:E; [| reflexivity].
    destruct (Hsort e E); congruence. }
  unfold sidebar.
  repeat (rewrite shown_bind;
          first [ rewrite shown_emit, Hno by reflexivity; cbn [snd emit ok Nat.add]
                | rewrite shown_lift; cbn [snd lift Nat.add];
                  match goal with
                  | |- context [match ?r with inl _ => 0%nat | inr _ => _ end] =>
                      destruct r; [reflexivity |]
                  end ]).
  reflexivity.
Qed.

Lemma award_card_shows_one (filtered : DataFrame) (p : nat) :
  (shown is_card (award_card filtered p) <= 1)%nat /\
  shown is_error (award_card filtered p) = 0%nat.
Proof.
  unfold award_card. split.
  - repeat count_step. rewrite shown_emit. simpl. lia.
  - repeat (rewrite shown_bind; rewrite shown_lift; cbn [snd lift Nat.add];
            match goal with
            | |- context [match ?r with inl _ => 0%nat | inr _ => _ end] =>
                destruct r; [reflexivity |]
            end).
    rewrite shown_emit. reflexivity.
Qed.

Lemma random_awards_length (filtered : DataFrame) (drawn : list nat) :
  (length (random_awards filtered drawn) <= Nat.min 5 (nrows filtered))%nat.
Proof. unfold random_awards. apply firstn_le_length. Qed.

Lemma views_shows (filtered : DataFrame) (theme_cols : list string) (drawn : list nat) :
  (shown is_card (views filtered theme_cols drawn) <= Nat.min 5 (nrows filtered))%nat /\
  shown is_error (views filtered theme_cols drawn) = 0%nat.
Proof.
  unfold views. split.
  - repeat count_step.
    eapply Nat.le_trans; [apply (shown_iter _ _ _ 1) | ].
    + intros p. apply award_card_shows_one.
    + pose proof (random_awards_length filtered drawn). lia.
  - repeat (rewrite shown_bind;
            first [ rewrite shown_emit; cbn [snd emit ok is_error Nat.add]
                  | rewrite shown_lift; cbn [snd lift Nat.add];
                    match goal with
                    | |- context [match ?r with inl _ => 0%nat | inr _ => _ end] =>
                        destruct r; [reflexivity |]
                    end ]).
    apply Nat.le_0_r. eapply Nat.le_trans; [apply (shown_iter _ _ _ 0) |]; [| lia].
    intros p. rewrite (proj2 (award_card_shows_one filtered p)). lia.
Qed.

Lemma dashboard_shows (df : DataFrame) (inp : Inputs) :
  (shown is_card (dashboard df inp) <= 5)%nat /\
  (forall filtered, filtered_df df inp = inr filtered ->
     (shown is_card (dashboard df inp) <= nrows filtered)%nat) /\
  shown is_error (dashboard df inp) = 0%nat.
Proof.
  unfold dashboard.
  rewrite !(shown_bind _ (sidebar df)).
  rewrite !sidebar_shows_none by (intros e He; auto).
  destruct (snd (sidebar df)) as [e | theme_cols].
  - repeat split; lia.
  - rewrite !shown_bind, !shown_lift. cbn [snd lift Nat.add].
    destruct (filtered_df df inp) as [e | filtered].
    + repeat split; try lia; discriminate.
    + destruct (views_shows filtered theme_cols (sample inp)) as (Hc & He).
      repeat split; try lia; intros f [= <-]; lia.
Qed.

Lemma shown_none_In {A : Type} (m : ui A) (msg : message) :
  shown is_error m = 0%nat -> ~ In (StError msg) (fst m).
Proof.
  unfold shown. intros H Hin.
  assert (Hf : In (StError msg) (filter is_error (fst m)))
    by (apply filter_In; split; [exact Hin | reflexivity]).
  destruct (filter is_error (fst m)); [contradiction | discriminate].
Qed.

Section RunFacts.

Variable parse_datetime : string -> option Z.
Variable parse_float : string -> option Q.

Lemma app_shows (sort : ui_event -> bool) (csv : result DataFrame) (inp : Inputs) :
  sort PageConfig = false -> sort Markup = false ->
  shown sort (app parse_datetime parse_float csv inp) =
  match load_data_try parse_datetime parse_float csv with
  | inr df => shown sort (dashboard df inp)
  | inl e => ((if sort (StError (ErrorLoadingData e)) then 1 else 0) +
              (if sort (StError UnableToLoadData) then 1 else 0))%nat
  end.
Proof.
  intros H1 H2. unfold app, load_data.
  rewrite shown_bind, shown_emit, H1. cbn [snd emit ok Nat.add].
  rewrite shown_bind, shown_emit, H2. cbn [snd emit ok Nat.add].
  rewrite shown_bind.
  destruct (load_data_try parse_datetime parse_float csv) as [e | df].
  - rewrite shown_bind, !shown_emit. cbn [snd emit ok ui_ret ui_bind].
    rewrite shown_emit. change (shown sort (ui_ret (@None DataFrame))) with 0%nat. lia.
  - unfold shown at 1. cbn [snd fst ui_ret ok filter length Nat.add]. reflexivity.
Qed.

(** X21. Whatever the file and the selections, a run shows at most five
    award cards, and never more cards than the filtered subset has
    rows: none for an empty subset. *)
Theorem feed_shows_at_most_five_cards (csv : result DataFrame) (inp : Inputs) :
  (shown is_card (app parse_datetime parse_float csv inp) <= 5)%nat /\
  (forall df filtered,
     load_data_try parse_datetime parse_float csv = inr df ->
     filtered_df df inp = inr filtered ->
     (shown is_card (app parse_datetime parse_float csv inp) <= nrows filtered)%nat).
Proof.
  rewrite (app_shows is_card) by reflexivity.
  destruct (load_data_try parse_datetime parse_float csv) as [e | df].
  - split; [simpl; lia | discriminate].
  - destruct (dashboard_shows df inp) as (H5 & Hrows & _).
    split; [exact H5 |]. intros df' filtered [= <-]. apply Hrows.
Qed.

(** X22. An error notice is shown exactly when the load fails, and then
    there are two of them.  After a successful load no error notice is
    shown, also when the dashboard stops with an exception (which the
    script does not catch). *)
Theorem error_notices_exactly_when_the_load_fails
    (csv : result DataFrame) (inp : Inputs) :
  shown is_error (app parse_datetime parse_float csv inp) =
    match load_data_try parse_datetime parse_float csv with
    | inl _ => 2%nat
    | inr _ => 0%nat
    end /\
  ((exists msg, In (StError msg) (fst (app parse_datetime parse_float csv inp))) <->
   (exists e, load_data_try parse_datetime parse_float csv = inl e)).
Proof.
  assert (Hcount : shown is_error (app parse_datetime parse_float csv inp) =
                   match load_data_try parse_datetime parse_float csv with
                   | inl _ => 2%nat
                   | inr _ => 0%nat
                   end).
  { rewrite (app_shows is_error) by reflexivity.
    destruct (load_data_try parse_datetime parse_float csv) as [e | df]; [reflexivity |].
    apply dashboard_shows. }
  split; [exact Hcount |]. split.
  - intros (msg & Hin).
    destruct (load_data_try parse_datetime parse_float csv) as [e | df]; [eauto |].
    destruct (shown_none_In _ msg Hcount Hin).
  - intros (e & He). exists UnableToLoadData.
    unfold app, load_data. rewrite He. simpl. auto.
Qed.

End RunFacts.
